(** * openhtf.exe.phasemanager: phase outcomes, the phase thread and the
      phase executor.

    A shallow embedding of [src/openhtf/exe/phasemanager.py].  Python
    objects that the module mutates are records threaded explicitly; a
    Python exception is the left summand of a sum; waiting times are
    rationals (seconds), standing for the floats the module hands to
    [Thread.join]. *)

From Stdlib Require Import List String ZArith QArith Bool Arith Lia.
Import ListNotations.

Local Open Scope string_scope.
Local Open Scope list_scope.

(** ** Python values that reach the module *)

(** Modelled from the spec: the enumeration [openhtf.PhaseResult] is
    declared outside this module.  A phase may return CONTINUE, REPEAT or
    FAIL; TIMEOUT and ABORT are members that a phase must not return, so
    only the first three carry [valid_phase_return]. *)
Inductive PhaseResult : Type :=
  | CONTINUE
  | REPEAT
  | FAIL
  | TIMEOUT
  | ABORT.

Definition valid_phase_return (r : PhaseResult) : bool :=
  match r with
  | CONTINUE | REPEAT | FAIL => true
  | TIMEOUT | ABORT => false
  end.

Definition PhaseResult_eqb (a b : PhaseResult) : bool :=
  match a, b with
  | CONTINUE, CONTINUE | REPEAT, REPEAT | FAIL, FAIL
  | TIMEOUT, TIMEOUT | ABORT, ABORT => true
  | _, _ => false
  end.

(** Instances of [Exception] and the other values a phase can hand back.
    [InvalidPhaseResultError] keeps its two constructor arguments.
    Modelled from the spec: [threads.ThreadTerminationError] is declared
    outside this module; the spec has the termination outcome carry an
    error, so it is an exception instance here. *)
Inductive PyException : Type :=
  | InvalidPhaseResultError (msg : string) (phase_result : PyValue)
  | ThreadTerminationError
  | IndexError (msg : string)
  | AttributeError (msg : string)
  | UserException (cls : string)
with PyValue : Type :=
  | PyNone
  | PyPhaseResult (r : PhaseResult)
  | PyExc (e : PyException)
  | PyInt (n : Z)
  | PyStr (s : string).

(** [isinstance(v, Exception)] *)
Definition isinstance_Exception (v : PyValue) : bool :=
  match v with PyExc _ => true | _ => false end.

(** [isinstance(v, openhtf.PhaseResult) and v.valid_phase_return] *)
Definition is_valid_PhaseResult (v : PyValue) : bool :=
  match v with PyPhaseResult r => valid_phase_return r | _ => false end.

(** [v == openhtf.PhaseResult.<r>]: an enumeration member equals only
    itself. *)
Definition py_eq_PhaseResult (v : PyValue) (r : PhaseResult) : bool :=
  match v with PyPhaseResult r' => PhaseResult_eqb r' r | _ => false end.

(** A call either raises or returns. *)
Definition raising (A : Type) : Type := (PyException + A)%type.

(** ** class PhaseOutcome *)

Module PhaseOutcome.

(** [collections.namedtuple('PhaseOutcome', 'phase_result')]: a tuple
    with the single field [phase_result]. *)
Record t : Type := namedtuple { phase_result : PyValue }.

(** The tuple underneath the namedtuple, and Python's truth value of a
    tuple: false exactly for the empty one. *)
Definition as_tuple (o : t) : list PyValue := [phase_result o].

Definition truthy (o : t) : bool := negb (Nat.eqb (List.length (as_tuple o)) 0).

(** [PhaseOutcome.__init__], lines 79-85. *)
Definition __init__ (phase_result : PyValue) : raising t :=
  if negb (match phase_result with PyNone => true | _ => false end
           || isinstance_Exception phase_result
           || is_valid_PhaseResult phase_result)
  then inl (InvalidPhaseResultError "Invalid phase result" phase_result)
  else inr (namedtuple phase_result).

(** Property [is_timeout], line 90. *)
Definition is_timeout (o : t) : bool :=
  match phase_result o with PyNone => true | _ => false end.

(** Property [raised_exception], line 95. *)
Definition raised_exception (o : t) : bool :=
  isinstance_Exception (phase_result o).

End PhaseOutcome.

(** ** Collaborators of the phase thread *)

(** Modelled from the spec: the execution context handed to every phase
    ([phase_data.PhaseData], declared outside this module).  It exposes a
    logger and a scoped-resource registry, [context], an exit stack.
    [context] lists the resources currently registered, newest first;
    [closed] records the resources released so far, in release order;
    [state] is the data that phases pass along to later attempts. *)
Record PhaseData : Type := {
  context : list string;
  closed : list string;
  logger : list string;
  plugs : list string;
  state : list (string * Z)
}.

(** [phase_data.context.pop_all().close()]: every registered resource is
    moved out of the stack and released, newest first. *)
Definition pop_all_close (pd : PhaseData) : PhaseData :=
  {| context := [];
     closed := closed pd ++ context pd;
     logger := logger pd;
     plugs := plugs pd;
     state := state pd |}.

(** [phase_data.logger.exception(msg)] *)
Definition logger_exception (msg : string) (pd : PhaseData) : PhaseData :=
  {| context := context pd;
     closed := closed pd;
     logger := logger pd ++ [msg];
     plugs := plugs pd;
     state := state pd |}.

(** How one call of a phase ends when nobody interrupts it. *)
Inductive Completion : Type :=
  | Returns (v : PyValue)
  | Raises (e : PyException).

(** What one call [phase(phase_data)] does: the resources it registers on
    the exit stack, the data it leaves for later attempts, and, unless it
    never ends, the time it takes and how it ends. *)
Record Run : Type := {
  acquires : list string;
  writes : list (string * Z);
  finish : option (Q * Completion)
}.

Record PhaseOptions : Type := {
  timeout_s : option Q;
  run_if : option (PhaseData -> raising bool)
}.

(** A phase ([phase_data.PhaseInfo]): a callable with a name, diagnostic
    information and options. *)
Record Phase : Type := {
  name : string;
  code_info : string;
  options : PhaseOptions;
  call : PhaseData -> Run
}.

(** The process flags ([FLAGS]) and the other thread of control: for the
    attempt that the executor logs as its n-th (line 188), [stop_at n] is
    the time after the start of its thread at which an external [Stop()]
    lands, if one does. *)
Record Env : Type := {
  phase_default_timeout_ms : Z;
  stop_at : nat -> option Q
}.

Definition Qltb (a b : Q) : bool := negb (Qle_bool b a).

(** The effects a call has had on the execution context once the phase has
    been entered. *)
Definition enter (r : Run) (pd : PhaseData) : PhaseData :=
  {| context := rev (acquires r) ++ context pd;
     closed := closed pd;
     logger := logger pd;
     plugs := plugs pd;
     state := state pd |}.

Definition leave (r : Run) (pd : PhaseData) : PhaseData :=
  {| context := context pd;
     closed := closed pd;
     logger := logger pd;
     plugs := plugs pd;
     state := writes r |}.

(** ** class PhaseExecutorThread *)

(** How far a started thread has come when [join] hands control back. *)
Inductive Progress : Type :=
  | Finished (c : Completion)
  | StillRunning
  | Terminated.

Module PhaseExecutorThread.

(** The thread object.  [_phase_data] is the executor's one execution
    context, shared with the sequencing side, so it is threaded through
    the methods and not copied into the record.
    Modelled from the spec: the base class [threads.KillableThread] is
    declared outside this module; [alive] is what [is_alive()] answers
    and [kill_requests] counts the forced-termination requests that
    reached in-flight work. *)
Record t : Type := {
  _phase : Phase;
  _phase_outcome : option PhaseOutcome.t;
  alive : bool;
  kill_requests : nat
}.

(** [__init__], lines 105-110. *)
Definition __init__ (phase : Phase) : t :=
  {| _phase := phase; _phase_outcome := None;
     alive := false; kill_requests := 0 |}.

Definition set_phase_outcome (o : PhaseOutcome.t) (self : t) : t :=
  {| _phase := _phase self; _phase_outcome := Some o;
     alive := alive self; kill_requests := kill_requests self |}.

Definition set_alive (b : bool) (self : t) : t :=
  {| _phase := _phase self; _phase_outcome := _phase_outcome self;
     alive := b; kill_requests := kill_requests self |}.

(** Modelled from the spec: [Kill()] requests forced termination of the
    in-flight work; it does not wait for the work to stop, and there is
    nothing to request once the thread has ended. *)
Definition Kill (self : t) : t :=
  if alive self
  then {| _phase := _phase self; _phase_outcome := _phase_outcome self;
          alive := alive self; kill_requests := S (kill_requests self) |}
  else self.

(** [_ThreadProc], lines 112-124, for a call [self._phase(phase_data)]
    that ends as [c] and has left the execution context [pd]. *)
Definition _ThreadProc (self : t) (c : Completion) (pd : PhaseData)
  : raising unit * t * PhaseData :=
  match c with
  | Raises exc => (inl exc, self, pd)
  | Returns v =>
      let phase_return :=
        match v with PyNone => PyPhaseResult CONTINUE | _ => v end in
      let pd := pop_all_close pd in
      match PhaseOutcome.__init__ phase_return with
      | inl exc => (inl exc, self, pd)
      | inr o => (inr tt, set_phase_outcome o self, pd)
      end
  end.

(** [_ThreadException], lines 126-128. *)
Definition _ThreadException (self : t) (exc : PyException) (pd : PhaseData)
  : raising unit * t * PhaseData :=
  match PhaseOutcome.__init__ (PyExc exc) with
  | inl e => (inl e, self, pd)
  | inr o =>
      (inr tt, set_phase_outcome o self,
       logger_exception
         ("Phase " ++ name (_phase self) ++ " raised an exception")%string pd)
  end.

(** Modelled from the spec: the thread body of the base class runs
    [_ThreadProc] and hands an exception it raises to
    [_ThreadException], so that no error of the work reaches the caller's
    control flow; the thread has ended afterwards. *)
Definition run (self : t) (c : Completion) (pd : PhaseData)
  : t * PhaseData :=
  match _ThreadProc self c pd with
  | (inr _, self, pd) => (set_alive false self, pd)
  | (inl exc, self, pd) =>
      let '(_, self, pd) := _ThreadException self exc pd in
      (set_alive false self, pd)
  end.

(** What a thread started on a call [r] has done after the caller waited
    [timeout] seconds for it, with an external kill landing at [kill_at]:
    it finished if the call ended before the deadline and before the
    kill; it was terminated if the kill landed before the deadline;
    otherwise it is still running. *)
Definition progress (timeout : Q) (kill_at : option Q) (r : Run)
  : Progress :=
  let killed_before (d : Q) :=
    match kill_at with Some k => Qltb k d | None => false end in
  let killed_in_time :=
    match kill_at with Some k => Qltb k timeout | None => false end in
  match finish r with
  | Some (d, c) =>
      if Qltb d timeout && negb (killed_before d) then Finished c
      else if killed_in_time then Terminated
      else StillRunning
  | None => if killed_in_time then Terminated else StillRunning
  end.

(** [start()] followed by [join(timeout)]: the shared execution context
    and the thread object as the caller finds them afterwards.  A thread
    that was terminated was running when the external [Stop()] handed it
    its [Kill()], and has ended since. *)
Definition join (timeout : Q) (kill_at : option Q) (self : t)
    (pd : PhaseData) : t * PhaseData :=
  let r := call (_phase self) pd in
  match progress timeout kill_at r with
  | Finished c => run self c (leave r (enter r pd))
  | StillRunning => (set_alive true self, enter r pd)
  | Terminated => (set_alive false (Kill (set_alive true self)), enter r pd)
  end.

(** The argument of [join] in [JoinOrDie], lines 132-135. *)
Definition join_timeout (env : Env) (self : t) : Q :=
  match timeout_s (options (_phase self)) with
  | Some timeout_s => timeout_s
  | None => inject_Z (phase_default_timeout_ms env) / 1000
  end.

(** [JoinOrDie], lines 130-147. *)
Definition JoinOrDie (env : Env) (kill_at : option Q) (self : t)
    (pd : PhaseData) : raising PhaseOutcome.t * t * PhaseData :=
  let '(self, pd) := join (join_timeout env self) kill_at self pd in
  match _phase_outcome self with
  | Some o => (inr o, self, pd)
  | None =>
      if alive self
      then let self := Kill self in
           (PhaseOutcome.__init__ PyNone, self, pd)
      else (PhaseOutcome.__init__ (PyExc ThreadTerminationError), self, pd)
  end.

(** Property [name], lines 149-151. *)
Definition name (self : t) : string := name (_phase self).

(** The [name] argument handed to the base class in [__init__],
    line 110. *)
Definition thread_name (self : t) : string :=
  ("PhaseThread: " ++ name self)%string.

(** [__str__] (and [__repr__]), lines 153-155, for an object whose class
    is [PhaseExecutorThread] itself. *)
Definition __str__ (self : t) : string :=
  ("<" ++ "PhaseExecutorThread" ++ ": (" ++ name self ++ ")>")%string.

End PhaseExecutorThread.

(** ** class PhaseExecutor *)

(** Records written to the module logger [_LOG], lines 184, 188 and 202. *)
Inductive LogRecord : Type :=
  | Skipped (phase_name : string)
  | Executing (phase_name : string) (with_plugs : list string)
  | FinishedWith (outcome : PhaseOutcome.t).

(** The test state the executor works on: the pending queue, the one
    execution context, and the record of the phase being run. *)
Record TestState : Type := {
  pending_phases : list Phase;
  phase_data : PhaseData;
  running_phase : option (string * string)
}.

(** [list.pop(0)]: raises [IndexError] on an empty list. *)
Definition pop0 {A : Type} (l : list A) : raising (A * list A) :=
  match l with
  | [] => inl (IndexError "pop from empty list")
  | x :: rest => inr (x, rest)
  end.

(** What a resumed generator does: it yields a value, ends, or raises.
    [OutOfFuel] belongs to the fuelled loop below only. *)
Inductive Resumed : Type :=
  | Yield (o : PhaseOutcome.t)
  | StopIteration
  | Raised (e : PyException)
  | OutOfFuel.

(** A generator object is suspended (at its start or at a [yield]) or has
    ended. *)
Inductive Frame : Type :=
  | Suspended
  | Ended.

(** What the attribute [_test_state] of an executor refers to once the
    caller has assigned it: the executor's own test state object, or some
    other one. *)
Inductive TestStateRef : Type :=
  | OwnTestState
  | OtherTestState (ts : TestState).

Module PhaseExecutor.

(** The executor object, with the records of the module logger kept next
    to it.  [test_state] and [current_phase] are the attributes that
    [__init__] assigns.  [_test_state] is the attribute that line 190
    goes through: it is not among the declared attributes and nothing in
    the module assigns it, so it is [None] (no such attribute) unless the
    caller has assigned it.  The declared attribute [_config] is never
    assigned nor read and is left out.
    Modelled from the spec: [_current_phase] is declared at line 159 with
    the default None; what the declaration does rests on [mutablerecords],
    which is not part of the module.  The spec has [Stop()] do nothing as
    long as no phase has been run, so the attribute reads None until
    line 196 assigns it. *)
Record t : Type := {
  test_state : TestState;
  current_phase : PyValue;
  _current_phase : option PhaseExecutorThread.t;
  _test_state : option TestStateRef;
  _LOG : list LogRecord
}.

(** [__init__], lines 162-164: it assigns [test_state] and
    [current_phase], and neither [_current_phase] nor [_test_state]. *)
Definition __init__ (test_state : TestState) : t :=
  {| test_state := test_state; current_phase := PyNone;
     _current_phase := None; _test_state := None; _LOG := [] |}.

Definition log (r : LogRecord) (self : t) : t :=
  {| test_state := test_state self;
     current_phase := current_phase self;
     _current_phase := _current_phase self;
     _test_state := _test_state self;
     _LOG := _LOG self ++ [r] |}.

Definition set_pending_phases (q : list Phase) (self : t) : t :=
  {| test_state :=
       {| pending_phases := q;
          phase_data := phase_data (test_state self);
          running_phase := running_phase (test_state self) |};
     current_phase := current_phase self;
     _current_phase := _current_phase self;
     _test_state := _test_state self;
     _LOG := _LOG self |}.

(** [self._test_state.running_phase = r], line 190.  Looking up an
    attribute that the object does not have raises [AttributeError]; when
    the attribute has been assigned, the record is written into the
    object it refers to. *)
Definition set_running_phase (r : option (string * string)) (self : t)
  : raising unit * t :=
  match _test_state self with
  | None =>
      (inl (AttributeError
              "'PhaseExecutor' object has no attribute '_test_state'"),
       self)
  | Some OwnTestState =>
      (inr tt,
       {| test_state :=
            {| pending_phases := pending_phases (test_state self);
               phase_data := phase_data (test_state self);
               running_phase := r |};
          current_phase := current_phase self;
          _current_phase := _current_phase self;
          _test_state := Some OwnTestState;
          _LOG := _LOG self |})
  | Some (OtherTestState ts) =>
      (inr tt,
       {| test_state := test_state self;
          current_phase := current_phase self;
          _current_phase := _current_phase self;
          _test_state :=
            Some (OtherTestState
                    {| pending_phases := pending_phases ts;
                       phase_data := phase_data ts;
                       running_phase := r |});
          _LOG := _LOG self |})
  end.

(** The state after the thread has been created, started and joined:
    the thread is the current one and the shared execution context shows
    what the phase did to it. *)
Definition set_thread (th : PhaseExecutorThread.t) (pd : PhaseData)
    (self : t) : t :=
  {| test_state :=
       {| pending_phases := pending_phases (test_state self);
          phase_data := pd;
          running_phase := running_phase (test_state self) |};
     current_phase := current_phase self;
     _current_phase := Some th;
     _test_state := _test_state self;
     _LOG := _LOG self |}.

(** The number of attempts logged at line 188 so far. *)
Definition attempts (self : t) : nat :=
  List.length
    (filter (fun r => match r with Executing _ _ => true | _ => false end)
            (_LOG self)).

(** The test of line 183:
    [phase.options.run_if and not phase.options.run_if(phase_data)]. *)
Definition skip_test (phase : Phase) (pd : PhaseData) : raising bool :=
  match run_if (options phase) with
  | None => inr false
  | Some run_if =>
      match run_if pd with
      | inl exc => inl exc
      | inr b => inr (negb b)
      end
  end.

(** [self.test_state.pending_phases.pop(0)] *)
Definition pop_pending (self : t) : raising unit * t :=
  match pop0 (pending_phases (test_state self)) with
  | inl exc => (inl exc, self)
  | inr (_, rest) => (inr tt, set_pending_phases rest self)
  end.

(** [_ExecuteOnePhase], lines 178-203.  The timing record of
    [RecordPhaseTiming] is outside this module; its wrapper only holds
    the outcome that [JoinOrDie] returned. *)
Definition _ExecuteOnePhase (env : Env) (self : t) (phase : Phase)
  : raising (option PhaseOutcome.t) * t :=
  let phase_data := phase_data (test_state self) in
  match skip_test phase phase_data with
  | inl exc => (inl exc, self)
  | inr true =>
      let self := log (Skipped (name phase)) self in
      match pop_pending self with
      | (inl exc, self) => (inl exc, self)
      | (inr _, self) => (inr None, self)
      end
  | inr false =>
      let kill_at := stop_at env (attempts self) in
      let self := log (Executing (name phase) (plugs phase_data)) self in
      match set_running_phase (Some (name phase, code_info phase)) self with
      | (inl exc, self) => (inl exc, self)
      | (inr _, self) =>
          let phase_thread := PhaseExecutorThread.__init__ phase in
          let '(joined, phase_thread, phase_data) :=
            PhaseExecutorThread.JoinOrDie env kill_at phase_thread
              phase_data in
          let self := set_thread phase_thread phase_data self in
          match joined with
          | inl exc => (inl exc, self)
          | inr outcome =>
              let '(popped, self) :=
                if py_eq_PhaseResult (PhaseOutcome.phase_result outcome)
                     CONTINUE
                then pop_pending self
                else (inr tt, self) in
              match popped with
              | inl exc => (inl exc, self)
              | inr _ =>
                  (inr (Some outcome), log (FinishedWith outcome) self)
              end
          end
      end
  end.

(** The loop of [ExecutePhases], lines 172-176, run from its head until
    the generator yields, ends or raises.  [not result] holds for the
    [None] of a skipped phase and for an empty tuple. *)
Fixpoint ExecutePhases_loop (fuel : nat) (env : Env) (self : t)
  : Resumed * t :=
  match fuel with
  | O => (OutOfFuel, self)
  | S fuel =>
      match pending_phases (test_state self) with
      | [] => (StopIteration, self)
      | phase :: _ =>
          match _ExecuteOnePhase env self phase with
          | (inl exc, self) => (Raised exc, self)
          | (inr None, self) => ExecutePhases_loop fuel env self
          | (inr (Some result), self) =>
              if negb (PhaseOutcome.truthy result)
              then ExecutePhases_loop fuel env self
              else (Yield result, self)
          end
      end
  end.

(** One [next()] on the generator that [ExecutePhases] returns.  Every
    pass through the loop that does not yield takes a phase off the
    queue, so one more pass than the queue is long is enough. *)
Definition next (env : Env) (gen : Frame * t) : Resumed * (Frame * t) :=
  match gen with
  | (Ended, self) => (StopIteration, (Ended, self))
  | (Suspended, self) =>
      let fuel := S (List.length (pending_phases (test_state self))) in
      match ExecutePhases_loop fuel env self with
      | (Yield o, self) => (Yield o, (Suspended, self))
      | (r, self) => (r, (Ended, self))
      end
  end.

(** [ExecutePhases()]: calling the generator function runs none of its
    body. *)
Definition ExecutePhases (self : t) : Frame * t := (Suspended, self).

(** A caller that takes up to [n] outcomes from the generator and goes
    on until it ends or raises. *)
Fixpoint take (n : nat) (env : Env) (gen : Frame * t)
  : list PhaseOutcome.t * (Frame * t) :=
  match n with
  | O => ([], gen)
  | S n =>
      match next env gen with
      | (Yield o, gen) =>
          let '(os, gen) := take n env gen in (o :: os, gen)
      | (_, gen) => ([], gen)
      end
  end.

(** [Stop], lines 205-208.  A thread object is always truthy, so the
    test is whether [_current_phase] is still [None]. *)
Definition Stop (self : t) : t :=
  match _current_phase self with
  | Some current =>
      {| test_state := test_state self;
         current_phase := current_phase self;
         _current_phase := Some (PhaseExecutorThread.Kill current);
         _test_state := _test_state self;
         _LOG := _LOG self |}
  | None => self
  end.

End PhaseExecutor.

(** ** Phases and states used as concrete inputs *)

Definition no_options : PhaseOptions :=
  {| timeout_s := None; run_if := None |}.

Definition fresh_data : PhaseData :=
  {| context := []; closed := []; logger := []; plugs := []; state := [] |}.

(** The default of the flag, line 49, and nobody calling [Stop()]. *)
Definition quiet_env : Env :=
  {| phase_default_timeout_ms := 3 * 60 * 1000; stop_at := fun _ => None |}.

(** An operator stops the first phase thread half a second after its
    start. *)
Definition stopping_env : Env :=
  {| phase_default_timeout_ms := 3 * 60 * 1000;
     stop_at := fun n => match n with O => Some (1 # 2) | _ => None end |}.

(** A phase that takes one second and returns [v]. *)
Definition returning (nm : string) (opts : PhaseOptions) (v : PyValue)
  : Phase :=
  {| name := nm; code_info := "phases.py"; options := opts;
     call := fun pd =>
       {| acquires := []; writes := state pd;
          finish := Some (1, Returns v) |} |}.

(** A phase that opens a port, registers it on the exit stack and returns
    [v] after one second. *)
Definition opening (nm : string) (v : PyValue) : Phase :=
  {| name := nm; code_info := "phases.py"; options := no_options;
     call := fun pd =>
       {| acquires := ["port"]; writes := state pd;
          finish := Some (1, Returns v) |} |}.

(** A phase that opens a port, registers it on the exit stack and then
    raises. *)
Definition leaky : Phase :=
  {| name := "leaky"; code_info := "phases.py"; options := no_options;
     call := fun pd =>
       {| acquires := ["port"]; writes := state pd;
          finish := Some (1, Raises (UserException "IOError")) |} |}.

(** A phase that never returns, with a timeout of five seconds. *)
Definition hanging : Phase :=
  {| name := "hanging"; code_info := "phases.py";
     options := {| timeout_s := Some 5; run_if := None |};
     call := fun pd =>
       {| acquires := []; writes := state pd; finish := None |} |}.

(** A phase that returns REPEAT on its first attempt and CONTINUE on the
    next, remembering the attempt in the shared state. *)
Definition twice : Phase :=
  {| name := "twice"; code_info := "phases.py"; options := no_options;
     call := fun pd =>
       match state pd with
       | [] => {| acquires := []; writes := [("tried", 1%Z)];
                  finish := Some (1, Returns (PyPhaseResult REPEAT)) |}
       | _ => {| acquires := []; writes := state pd;
                 finish := Some (1, Returns (PyPhaseResult CONTINUE)) |}
       end |}.

Definition never_run : PhaseOptions :=
  {| timeout_s := None; run_if := Some (fun _ => inr false) |}.

(** Options whose guard raises. *)
Definition broken_guard : PhaseOptions :=
  {| timeout_s := None;
     run_if := Some (fun _ => inl (UserException "KeyError")) |}.

Definition zero_timeout : PhaseOptions :=
  {| timeout_s := Some 0; run_if := None |}.

(** The executor as [PhaseExecutor(test_state)] builds it on a fresh test
    state with the queue [q]. *)
Definition executor_on (q : list Phase) : PhaseExecutor.t :=
  PhaseExecutor.__init__
    {| pending_phases := q; phase_data := fresh_data;
       running_phase := None |}.

Definition pending (self : PhaseExecutor.t) : list Phase :=
  pending_phases (PhaseExecutor.test_state self).

Definition data (self : PhaseExecutor.t) : PhaseData :=
  phase_data (PhaseExecutor.test_state self).


(** The attribute [_test_state] has been assigned. *)
Definition has_test_state (self : PhaseExecutor.t) : bool :=
  match PhaseExecutor._test_state self with
  | Some _ => true
  | None => false
  end.

(** The executor after its caller has run
    [executor._test_state = executor.test_state]. *)
Definition assigned (self : PhaseExecutor.t) : PhaseExecutor.t :=
  {| PhaseExecutor.test_state := PhaseExecutor.test_state self;
     PhaseExecutor.current_phase := PhaseExecutor.current_phase self;
     PhaseExecutor._current_phase := PhaseExecutor._current_phase self;
     PhaseExecutor._test_state := Some OwnTestState;
     PhaseExecutor._LOG := PhaseExecutor._LOG self |}.

(** The message of the [AttributeError] of line 190. *)
Definition no_test_state : string :=
  "'PhaseExecutor' object has no attribute '_test_state'".

(** The executor once an attempt on [phase] has been logged (line 188). *)
Definition logged_attempt (self : PhaseExecutor.t) (phase : Phase)
  : PhaseExecutor.t :=
  PhaseExecutor.log (Executing (name phase) (plugs (data self))) self.

(** The state in which an executed attempt leaves the executor: the
    attempt is logged, the running phase recorded through [_test_state],
    the thread made current, the context as the phase left it, the queue
    as given, and the outcome logged. *)
Definition after_attempt (self : PhaseExecutor.t) (phase : Phase)
    (queue : list Phase) (th : PhaseExecutorThread.t) (pd : PhaseData)
    (o : PhaseOutcome.t) : PhaseExecutor.t :=
  PhaseExecutor.log (FinishedWith o)
    (PhaseExecutor.set_pending_phases queue
       (PhaseExecutor.set_thread th pd
          (snd (PhaseExecutor.set_running_phase
                  (Some (name phase, code_info phase))
                  (logged_attempt self phase))))).

(** The executor after the loop has passed over the phases [skipped] at
    the front of its queue, each by the skip branch of
    [_ExecuteOnePhase], with [remaining] still pending. *)
Definition after_skips (self : PhaseExecutor.t) (skipped remaining : list Phase)
  : PhaseExecutor.t :=
  {| PhaseExecutor.test_state :=
       {| pending_phases := remaining;
          phase_data := data self;
          running_phase := running_phase (PhaseExecutor.test_state self) |};
     PhaseExecutor.current_phase := PhaseExecutor.current_phase self;
     PhaseExecutor._current_phase := PhaseExecutor._current_phase self;
     PhaseExecutor._test_state := PhaseExecutor._test_state self;
     PhaseExecutor._LOG :=
       PhaseExecutor._LOG self
         ++ map (fun phase => Skipped (name phase)) skipped |}.

(** The guard of [phase] makes line 183 skip it on the context [pd]. *)
Definition skipped_on (pd : PhaseData) (phase : Phase) : Prop :=
  PhaseExecutor.skip_test phase pd = inr true.



(** * Properties *)

(** ** Outcomes *)

Lemma init_timeout_sentinel :
  PhaseOutcome.__init__ PyNone = inr (PhaseOutcome.namedtuple PyNone).
Proof. reflexivity. Qed.

Lemma init_exception (exc : PyException) :
  PhaseOutcome.__init__ (PyExc exc)
  = inr (PhaseOutcome.namedtuple (PyExc exc)).
Proof. reflexivity. Qed.

Lemma init_stores (v : PyValue) (o : PhaseOutcome.t) :
  PhaseOutcome.__init__ v = inr o -> PhaseOutcome.phase_result o = v.
Proof.
  unfold PhaseOutcome.__init__.
  destruct (negb _); [discriminate|].
  intros E. injection E as <-. reflexivity.
Qed.

Lemma outcome_truthy (o : PhaseOutcome.t) : PhaseOutcome.truthy o = true.
Proof. destruct o. reflexivity. Qed.

(** C3. Constructing a PhaseOutcome succeeds exactly for the three shapes:
    the timeout sentinel None, an Exception instance, or one of the
    PhaseResults CONTINUE, REPEAT and FAIL, and then stores the value as
    it is; for every other value, among them an integer, a string and
    the PhaseResults TIMEOUT and ABORT, it raises InvalidPhaseResultError
    carrying that value. *)
Theorem PhaseOutcome_accepts_three_shapes :
  (forall v : PyValue,
      PhaseOutcome.__init__ v =
      match v with
      | PyNone | PyExc _
      | PyPhaseResult CONTINUE | PyPhaseResult REPEAT | PyPhaseResult FAIL =>
          inr (PhaseOutcome.namedtuple v)
      | PyPhaseResult TIMEOUT | PyPhaseResult ABORT | PyInt _ | PyStr _ =>
          inl (InvalidPhaseResultError "Invalid phase result" v)
      end)
  /\ (forall v : PyValue,
         (exists o, PhaseOutcome.__init__ v = inr o)
         <-> (v = PyNone \/ (exists exc, v = PyExc exc)
              \/ v = PyPhaseResult CONTINUE \/ v = PyPhaseResult REPEAT
              \/ v = PyPhaseResult FAIL)).
Proof.
  split.
  - intros [ | [ | | | | ] | exc | n | s ]; reflexivity.
  - intros v; split.
    + intros [o E].
      destruct v as [ | [ | | | | ] | exc | n | s ];
        try discriminate E; eauto 6.
    + intros [-> | [[exc ->] | [-> | [-> | ->]]]];
        eexists; reflexivity.
Qed.

(** ** The phase thread *)

(** [JoinOrDie] on a freshly made thread never raises: it hands back one
    outcome whatever the phase does. *)
Lemma JoinOrDie_returns (env : Env) (kill_at : option Q) (phase : Phase)
    (pd : PhaseData) :
  exists o self' pd',
    PhaseExecutorThread.JoinOrDie env kill_at
      (PhaseExecutorThread.__init__ phase) pd = (inr o, self', pd')
    /\ PhaseExecutorThread._phase self' = phase.
Proof.
  unfold PhaseExecutorThread.JoinOrDie, PhaseExecutorThread.join.
  destruct (PhaseExecutorThread.progress _ _ _) as [[v | exc] | | ].
  - unfold PhaseExecutorThread.run, PhaseExecutorThread._ThreadProc.
    destruct (PhaseOutcome.__init__ _) as [exc | o]; simpl;
      do 3 eexists; split; reflexivity.
  - simpl. do 3 eexists; split; reflexivity.
  - simpl. do 3 eexists; split; reflexivity.
  - simpl. do 3 eexists; split; reflexivity.
Qed.


(** C4 (amended). Every call to JoinOrDie on a started thread returns
    exactly one PhaseOutcome and never raises.  If the phase completed in
    time and returned None the outcome is CONTINUE; if it returned a valid
    PhaseResult (or an Exception instance) the outcome holds that value;
    if it returned anything else the outcome is an Error holding
    InvalidPhaseResultError with the returned value; if it raised, the
    outcome is an Error holding the raised exception; if the thread is
    still alive at the deadline the outcome is the Timeout, one Kill
    request was issued and the thread is not waited for; if the thread was
    terminated the outcome is an Error holding ThreadTerminationError,
    the thread has ended and the one Kill it received is the external
    one. *)
Theorem JoinOrDie_classifies (env : Env) (kill_at : option Q)
    (phase : Phase) (pd : PhaseData) :
  let self := PhaseExecutorThread.__init__ phase in
  exists o self' pd',
    PhaseExecutorThread.JoinOrDie env kill_at self pd = (inr o, self', pd')
    /\ match PhaseExecutorThread.progress
               (PhaseExecutorThread.join_timeout env self) kill_at
               (call phase pd) with
       | Finished (Returns PyNone) =>
           PhaseOutcome.phase_result o = PyPhaseResult CONTINUE
           /\ PhaseExecutorThread.kill_requests self' = 0%nat
       | Finished (Returns v) =>
           (if isinstance_Exception v || is_valid_PhaseResult v
            then PhaseOutcome.phase_result o = v
            else PhaseOutcome.phase_result o
                 = PyExc (InvalidPhaseResultError "Invalid phase result" v))
           /\ PhaseExecutorThread.kill_requests self' = 0%nat
       | Finished (Raises exc) =>
           PhaseOutcome.phase_result o = PyExc exc
           /\ PhaseExecutorThread.kill_requests self' = 0%nat
       | StillRunning =>
           PhaseOutcome.phase_result o = PyNone
           /\ PhaseExecutorThread.kill_requests self' = 1%nat
           /\ PhaseExecutorThread.alive self' = true
       | Terminated =>
           PhaseOutcome.phase_result o = PyExc ThreadTerminationError
           /\ PhaseExecutorThread.kill_requests self' = 1%nat
           /\ PhaseExecutorThread.alive self' = false
       end.
Proof.
  intros self. subst self.
  unfold PhaseExecutorThread.JoinOrDie, PhaseExecutorThread.join.
  destruct (PhaseExecutorThread.progress _ _ _) as [[v | exc] | | ].
  - destruct v as [ | [ | | | | ] | exc | n | s ]; simpl;
      do 3 eexists; split; try reflexivity; split; reflexivity.
  - simpl. do 3 eexists; split; [reflexivity | split; reflexivity].
  - simpl. do 3 eexists; split; [reflexivity | repeat split].
  - simpl. do 3 eexists; split; [reflexivity | repeat split].
Qed.

(** C4, as stated, fails: a phase that completes and returns the integer
    42 does not get its captured return value as outcome, but an Error
    holding InvalidPhaseResultError. *)
Lemma JoinOrDie_invalid_return_is_error :
  let phase := returning "odd" no_options (PyInt 42) in
  let self := PhaseExecutorThread.__init__ phase in
  PhaseExecutorThread.progress
    (PhaseExecutorThread.join_timeout quiet_env self) None
    (call phase fresh_data) = Finished (Returns (PyInt 42))
  /\ exists o self' pd',
      PhaseExecutorThread.JoinOrDie quiet_env None self fresh_data
      = (inr o, self', pd')
      /\ PhaseOutcome.phase_result o
         = PyExc (InvalidPhaseResultError "Invalid phase result" (PyInt 42))
      /\ PhaseOutcome.phase_result o <> PyInt 42
      /\ PhaseOutcome.raised_exception o = true.
Proof.
  split; [reflexivity|].
  do 3 eexists. split; [reflexivity|].
  repeat split. discriminate.
Qed.

(** An outcome is the Timeout only when the thread was still running at
    the deadline: a phase that ended never leaves None as its outcome. *)
Lemma finished_is_not_timeout (self : PhaseExecutorThread.t)
    (c : Completion) (pd : PhaseData) :
  PhaseExecutorThread._phase_outcome self = None ->
  exists o,
    PhaseExecutorThread._phase_outcome
      (fst (PhaseExecutorThread.run self c pd)) = Some o
    /\ PhaseOutcome.is_timeout o = false.
Proof.
  intros _.
  destruct c as [v | exc]; [|eexists; split; reflexivity].
  destruct v as [ | [ | | | | ] | exc | n | s ];
    eexists; split; reflexivity.
Qed.

(** With no external kill, a call that ends after [d] seconds is finished
    at the deadline exactly when [d] is before it. *)
Lemma progress_unkilled (timeout : Q) (r : Run) (d : Q) (c : Completion) :
  finish r = Some (d, c) ->
  PhaseExecutorThread.progress timeout None r
  = if Qltb d timeout then Finished c else StillRunning.
Proof.
  intros E. unfold PhaseExecutorThread.progress. rewrite E.
  destruct (Qltb d timeout); reflexivity.
Qed.

(** C6 (amended). The wait deadline of JoinOrDie is the phase's own
    timeout whenever one is configured, whatever its value: a phase that
    ends after d seconds times out exactly when its configured timeout is
    at most d, so a timeout of zero or less is passed on as it is and the
    phase is not waited for.  Only when no timeout is configured is the
    deadline the process-wide default, in seconds. *)
Theorem deadline_is_own_timeout_else_default (env : Env) (phase : Phase)
    (pd : PhaseData) (d : Q) (c : Completion) :
  finish (call phase pd) = Some (d, c) ->
  exists o self' pd',
    PhaseExecutorThread.JoinOrDie env None
      (PhaseExecutorThread.__init__ phase) pd = (inr o, self', pd')
    /\ match timeout_s (options phase) with
       | Some t => PhaseOutcome.is_timeout o = true <-> (t <= d)%Q
       | None =>
           PhaseOutcome.is_timeout o = true
           <-> (inject_Z (phase_default_timeout_ms env) / 1000 <= d)%Q
       end.
Proof.
  intros Hfin.
  assert (HT : exists T,
             PhaseExecutorThread.join_timeout env
               (PhaseExecutorThread.__init__ phase) = T
             /\ match timeout_s (options phase) with
                | Some t => T = t
                | None => T = inject_Z (phase_default_timeout_ms env) / 1000
                end).
  { unfold PhaseExecutorThread.join_timeout.
    cbn [PhaseExecutorThread.__init__ PhaseExecutorThread._phase].
    destruct (timeout_s (options phase)); eexists; split; reflexivity. }
  destruct HT as [T [HT Hres]].
  assert (Hwait : exists o self' pd',
             PhaseExecutorThread.JoinOrDie env None
               (PhaseExecutorThread.__init__ phase) pd = (inr o, self', pd')
             /\ (PhaseOutcome.is_timeout o = true <-> (T <= d)%Q)).
  { unfold PhaseExecutorThread.JoinOrDie, PhaseExecutorThread.join.
    rewrite HT.
    cbn [PhaseExecutorThread.__init__ PhaseExecutorThread._phase].
    rewrite (progress_unkilled T (call phase pd) d c Hfin).
    unfold Qltb. destruct (Qle_bool T d) eqn:E; cbn [negb].
    - do 3 eexists. split; [reflexivity|].
      split; [intros _; now apply Qle_bool_iff | reflexivity].
    - destruct (finished_is_not_timeout
                  (PhaseExecutorThread.__init__ phase) c
                  (leave (call phase pd) (enter (call phase pd) pd))
                  eq_refl) as [o [Ho Hnt]].
      fold (PhaseExecutorThread.__init__ phase).
      destruct (PhaseExecutorThread.run _ c _) as [self1 pd1].
      cbn [fst] in Ho. rewrite Ho.
      do 3 eexists. split; [reflexivity|].
      rewrite Hnt. split; [discriminate|].
      intros HTd. apply Qle_bool_iff in HTd. congruence. }
  clear HT.
  destruct (timeout_s (options phase)); rewrite Hres in Hwait; exact Hwait.
Qed.

Lemma deadline_is_own_timeout_else_default_witness :
  finish (call (returning "hurried" zero_timeout PyNone) fresh_data)
  = Some (1, Returns PyNone)
  /\ exists o self' pd',
      PhaseExecutorThread.JoinOrDie quiet_env None
        (PhaseExecutorThread.__init__
           (returning "hurried" zero_timeout PyNone)) fresh_data
      = (inr o, self', pd')
      /\ (PhaseOutcome.is_timeout o = true <-> (0 <= 1)%Q).
Proof.
  split; [reflexivity|].
  apply (deadline_is_own_timeout_else_default quiet_env
           (returning "hurried" zero_timeout PyNone) fresh_data 1
           (Returns PyNone)).
  reflexivity.
Defined.

(** C6, as stated, fails: a phase configured with a timeout of zero that
    would end after one second, well within the default of 180 seconds,
    is given the deadline zero and times out; without a configured timeout
    the same phase is waited for and its outcome is CONTINUE. *)
Lemma zero_timeout_is_not_the_default :
  let hurried := returning "hurried" zero_timeout PyNone in
  let patient := returning "patient" no_options PyNone in
  PhaseExecutorThread.join_timeout quiet_env
    (PhaseExecutorThread.__init__ hurried) = 0
  /\ ~ (PhaseExecutorThread.join_timeout quiet_env
          (PhaseExecutorThread.__init__ hurried)
        == inject_Z (phase_default_timeout_ms quiet_env) / 1000)%Q
  /\ (exists self' pd',
         PhaseExecutorThread.JoinOrDie quiet_env None
           (PhaseExecutorThread.__init__ hurried) fresh_data
         = (inr (PhaseOutcome.namedtuple PyNone), self', pd'))
  /\ (exists self' pd',
         PhaseExecutorThread.JoinOrDie quiet_env None
           (PhaseExecutorThread.__init__ patient) fresh_data
         = (inr (PhaseOutcome.namedtuple (PyPhaseResult CONTINUE)),
            self', pd')).
Proof.
  cbv zeta. split; [reflexivity|].
  split; [intros H; vm_compute in H; discriminate H|].
  split; do 2 eexists; reflexivity.
Qed.

(** ** Scoped resources *)

(** On the path where the phase returns, [_ThreadProc] empties the exit
    stack and releases everything on it before the outcome is made, also
    when the returned value is then refused. *)
Lemma ThreadProc_return_releases (self : PhaseExecutorThread.t)
    (v : PyValue) (pd : PhaseData) :
  let '(_, _, pd') := PhaseExecutorThread._ThreadProc self (Returns v) pd in
  context pd' = [] /\ closed pd' = closed pd ++ context pd.
Proof.
  unfold PhaseExecutorThread._ThreadProc.
  destruct (PhaseOutcome.__init__ _); split; reflexivity.
Qed.

(** On the path where the phase raises, the thread makes the Error outcome
    and leaves the exit stack as the phase left it. *)
Lemma run_raise_keeps_context (self : PhaseExecutorThread.t)
    (exc : PyException) (pd : PhaseData) :
  let '(self', pd') := PhaseExecutorThread.run self (Raises exc) pd in
  PhaseExecutorThread._phase_outcome self'
  = Some (PhaseOutcome.namedtuple (PyExc exc))
  /\ context pd' = context pd /\ closed pd' = closed pd.
Proof. repeat split. Qed.

(** C7, at the failing input: a phase that registers a port on the exit
    stack and then raises.  JoinOrDie returns the finished Error outcome
    while the port is still registered and nothing has been released;
    the same phase returning normally has the port released. *)
Theorem raising_phase_leaves_resources_open :
  (exists self' pd',
      PhaseExecutorThread.JoinOrDie quiet_env None
        (PhaseExecutorThread.__init__ leaky) fresh_data
      = (inr (PhaseOutcome.namedtuple (PyExc (UserException "IOError"))),
         self', pd')
      /\ context pd' = ["port"] /\ closed pd' = [])
  /\ (exists self' pd',
         PhaseExecutorThread.JoinOrDie quiet_env None
           (PhaseExecutorThread.__init__ (opening "tidy" PyNone)) fresh_data
         = (inr (PhaseOutcome.namedtuple (PyPhaseResult CONTINUE)),
            self', pd')
         /\ context pd' = [] /\ closed pd' = ["port"]).
Proof.
  split; do 2 eexists; (split; [reflexivity | split; reflexivity]).
Qed.

(** ** One pass of the executor *)

Lemma ExecuteOnePhase_guard_raises (env : Env) (self : PhaseExecutor.t)
    (phase : Phase) (exc : PyException) :
  PhaseExecutor.skip_test phase (data self) = inl exc ->
  PhaseExecutor._ExecuteOnePhase env self phase = (inl exc, self).
Proof.
  intros E. unfold PhaseExecutor._ExecuteOnePhase.
  unfold data in E. rewrite E. reflexivity.
Qed.

Lemma ExecuteOnePhase_skipped (env : Env) (self : PhaseExecutor.t)
    (phase head : Phase) (rest : list Phase) :
  pending self = head :: rest ->
  PhaseExecutor.skip_test phase (data self) = inr true ->
  PhaseExecutor._ExecuteOnePhase env self phase
  = (inr None,
     PhaseExecutor.set_pending_phases rest
       (PhaseExecutor.log (Skipped (name phase)) self)).
Proof.
  intros Hq E. unfold PhaseExecutor._ExecuteOnePhase.
  unfold data in E. rewrite E.
  unfold PhaseExecutor.pop_pending.
  cbn [PhaseExecutor.log PhaseExecutor.test_state].
  unfold pending in Hq. rewrite Hq. reflexivity.
Qed.

(** Without the attribute [_test_state], an attempt is logged and then
    ends at line 190. *)
Lemma ExecuteOnePhase_unassigned (env : Env) (self : PhaseExecutor.t)
    (phase : Phase) :
  PhaseExecutor.skip_test phase (data self) = inr false ->
  PhaseExecutor._test_state self = None ->
  PhaseExecutor._ExecuteOnePhase env self phase
  = (inl (AttributeError no_test_state), logged_attempt self phase).
Proof.
  intros E N. unfold PhaseExecutor._ExecuteOnePhase.
  unfold data in E. rewrite E.
  unfold PhaseExecutor.set_running_phase.
  cbn [PhaseExecutor.log PhaseExecutor._test_state].
  rewrite N. reflexivity.
Qed.

Lemma ExecuteOnePhase_executed (env : Env) (self : PhaseExecutor.t)
    (phase head : Phase) (rest : list Phase) :
  pending self = head :: rest ->
  PhaseExecutor.skip_test phase (data self) = inr false ->
  has_test_state self = true ->
  exists o th pd,
    PhaseExecutorThread.JoinOrDie env
      (stop_at env (PhaseExecutor.attempts self))
      (PhaseExecutorThread.__init__ phase) (data self) = (inr o, th, pd)
    /\ PhaseExecutorThread._phase th = phase
    /\ PhaseExecutor._ExecuteOnePhase env self phase
       = (inr (Some o),
          after_attempt self phase
            (if py_eq_PhaseResult (PhaseOutcome.phase_result o) CONTINUE
             then rest else head :: rest)
            th pd o).
Proof.
  intros Hq E A.
  destruct (JoinOrDie_returns env
              (stop_at env (PhaseExecutor.attempts self)) phase (data self))
    as (o & th & pd & HJ & Hth).
  exists o, th, pd. split; [exact HJ|]. split; [exact Hth|].
  unfold PhaseExecutor._ExecuteOnePhase, after_attempt, logged_attempt.
  unfold data in E, HJ. unfold data. rewrite E.
  unfold has_test_state in A. unfold pending in Hq.
  unfold PhaseExecutor.set_running_phase.
  cbn [PhaseExecutor.log PhaseExecutor._test_state PhaseExecutor.test_state].
  destruct (PhaseExecutor._test_state self) as [[ | ts] | ];
    try discriminate A; cbn [snd];
    cbn [PhaseExecutor.test_state phase_data]; rewrite HJ;
    destruct (py_eq_PhaseResult (PhaseOutcome.phase_result o) CONTINUE);
    unfold PhaseExecutor.pop_pending, PhaseExecutor.set_thread,
      PhaseExecutor.set_pending_phases, PhaseExecutor.log;
    cbn [PhaseExecutor.test_state PhaseExecutor._LOG pending_phases
         PhaseExecutor.current_phase PhaseExecutor._current_phase
         PhaseExecutor._test_state phase_data running_phase];
    rewrite Hq; reflexivity.
Qed.

Lemma log_set_running_phase (r : option (string * string))
    (self : PhaseExecutor.t) :
  PhaseExecutor._LOG (snd (PhaseExecutor.set_running_phase r self))
  = PhaseExecutor._LOG self.
Proof.
  unfold PhaseExecutor.set_running_phase.
  destruct (PhaseExecutor._test_state self) as [[ | ts] | ]; reflexivity.
Qed.

Lemma attempts_after_attempt (self : PhaseExecutor.t) (phase : Phase)
    (queue : list Phase) (th : PhaseExecutorThread.t) (pd : PhaseData)
    (o : PhaseOutcome.t) :
  PhaseExecutor.attempts (after_attempt self phase queue th pd o)
  = S (PhaseExecutor.attempts self).
Proof.
  unfold PhaseExecutor.attempts, after_attempt, logged_attempt.
  cbn [PhaseExecutor.log PhaseExecutor.set_pending_phases
       PhaseExecutor.set_thread PhaseExecutor._LOG].
  rewrite log_set_running_phase. cbn [PhaseExecutor.log PhaseExecutor._LOG].
  rewrite !filter_app, !length_app. cbn. lia.
Qed.


Lemma current_after_attempt (self : PhaseExecutor.t) (phase : Phase)
    (queue : list Phase) (th : PhaseExecutorThread.t) (pd : PhaseData)
    (o : PhaseOutcome.t) :
  pending (after_attempt self phase queue th pd o) = queue
  /\ data (after_attempt self phase queue th pd o) = pd
  /\ PhaseExecutor._current_phase (after_attempt self phase queue th pd o)
     = Some th.
Proof. repeat split. Qed.

(** The ways one pass of the loop can go. *)
Lemma loop_step (fuel : nat) (env : Env) (self : PhaseExecutor.t)
    (phase : Phase) (rest : list Phase) :
  pending self = phase :: rest ->
  PhaseExecutor.ExecutePhases_loop (S fuel) env self
  = match PhaseExecutor._ExecuteOnePhase env self phase with
    | (inl exc, self') => (Raised exc, self')
    | (inr None, self') => PhaseExecutor.ExecutePhases_loop fuel env self'
    | (inr (Some o), self') => (Yield o, self')
    end.
Proof.
  intros Hq. cbn [PhaseExecutor.ExecutePhases_loop].
  unfold pending in Hq. rewrite Hq.
  destruct (PhaseExecutor._ExecuteOnePhase env self phase)
    as [[exc | [o | ]] self']; reflexivity.
Qed.

Lemma skip_test_true (phase : Phase) (pd : PhaseData) :
  PhaseExecutor.skip_test phase pd = inr true
  <-> exists guard, run_if (options phase) = Some guard
                    /\ guard pd = inr false.
Proof.
  unfold PhaseExecutor.skip_test. split.
  - destruct (run_if (options phase)) as [guard | ]; [|discriminate].
    destruct (guard pd) as [exc | [ | ]] eqn:G; try discriminate.
    intros _. exists guard. split; [reflexivity | exact G].
  - intros (guard & -> & ->). reflexivity.
Qed.

Lemma pending_skipped (rest : list Phase) (r : LogRecord)
    (self : PhaseExecutor.t) :
  pending (PhaseExecutor.set_pending_phases rest (PhaseExecutor.log r self))
  = rest.
Proof. reflexivity. Qed.

Lemma has_test_state_cases (self : PhaseExecutor.t) :
  (has_test_state self = true /\ PhaseExecutor._test_state self <> None)
  \/ (has_test_state self = false /\ PhaseExecutor._test_state self = None).
Proof.
  unfold has_test_state.
  destruct (PhaseExecutor._test_state self);
    [left; split; [reflexivity | discriminate] | right; split; reflexivity].
Qed.

(** ** The generator *)

(** The loop never runs out of the fuel that [next] gives it, so every
    [next()] yields, ends or raises. *)
Lemma loop_total (fuel : nat) (env : Env) (self : PhaseExecutor.t) :
  (List.length (pending self) < fuel)%nat ->
  fst (PhaseExecutor.ExecutePhases_loop fuel env self) <> OutOfFuel.
Proof.
  revert self. induction fuel as [ | fuel IH]; intros self Hlen; [lia|].
  destruct (pending self) as [ | phase rest] eqn:Hq.
  - cbn [PhaseExecutor.ExecutePhases_loop].
    unfold pending in Hq. rewrite Hq. discriminate.
  - rewrite (loop_step fuel env self phase rest Hq).
    destruct (PhaseExecutor.skip_test phase (data self))
      as [exc | [ | ]] eqn:G.
    + rewrite (ExecuteOnePhase_guard_raises env self phase exc G).
      discriminate.
    + rewrite (ExecuteOnePhase_skipped env self phase phase rest Hq G).
      apply IH. rewrite pending_skipped. cbn [List.length] in Hlen. lia.
    + destruct (has_test_state_cases self) as [[A _] | [_ N]].
      * destruct (ExecuteOnePhase_executed env self phase phase rest Hq G A)
          as (o & th & pd & _ & _ & ->).
        discriminate.
      * rewrite (ExecuteOnePhase_unassigned env self phase G N).
        discriminate.
Qed.

Lemma next_total (env : Env) (gen : Frame * PhaseExecutor.t) :
  fst (PhaseExecutor.next env gen) <> OutOfFuel.
Proof.
  destruct gen as [[ | ] self]; [|discriminate].
  unfold PhaseExecutor.next.
  pose proof (loop_total (S (List.length (pending self))) env self
                (Nat.lt_succ_diag_r _)) as H.
  unfold pending in H.
  destruct (PhaseExecutor.ExecutePhases_loop _ env self) as [[o | | exc | ] s];
    cbn [fst] in *; try discriminate.
  congruence.
Qed.


(** [next] on a suspended generator whose queue has a head. *)
Lemma next_step (env : Env) (self : PhaseExecutor.t) (phase : Phase)
    (rest : list Phase) :
  pending self = phase :: rest ->
  PhaseExecutor.next env (PhaseExecutor.ExecutePhases self)
  = match PhaseExecutor._ExecuteOnePhase env self phase with
    | (inl exc, self') => (Raised exc, (Ended, self'))
    | (inr None, self') =>
        match PhaseExecutor.ExecutePhases_loop (S (List.length rest))
                env self' with
        | (Yield o, self'') => (Yield o, (Suspended, self''))
        | (r, self'') => (r, (Ended, self''))
        end
    | (inr (Some o), self') => (Yield o, (Suspended, self'))
    end.
Proof.
  intros Hq. unfold PhaseExecutor.ExecutePhases, PhaseExecutor.next.
  pose proof Hq as Hq'. unfold pending in Hq'. rewrite Hq'.
  cbn [List.length].
  rewrite (loop_step (S (List.length rest)) env self phase rest Hq).
  destruct (PhaseExecutor._ExecuteOnePhase env self phase)
    as [[exc | [o | ]] self']; reflexivity.
Qed.

Lemma next_empty (env : Env) (self : PhaseExecutor.t) :
  pending self = [] ->
  PhaseExecutor.next env (PhaseExecutor.ExecutePhases self)
  = (StopIteration, (Ended, self)).
Proof.
  destruct self as [[q pd rp] cp cur ts lg]. unfold pending. cbn.
  intros ->. reflexivity.
Qed.

Lemma eq_CONTINUE (v : PyValue) :
  py_eq_PhaseResult v CONTINUE = true <-> v = PyPhaseResult CONTINUE.
Proof.
  split.
  - destruct v as [ | [ | | | | ] | exc | n | s ];
      try discriminate; reflexivity.
  - intros ->. reflexivity.
Qed.


Lemma tail_differs {A : Type} (x : A) (l : list A) : l <> x :: l.
Proof.
  intros E. apply (f_equal (@List.length A)) in E.
  cbn [List.length] in E. lia.
Qed.

(** ** The sequencing loop *)

(** When the attribute [_test_state] has been assigned, an attempt on the
    phase at the head of the queue whose guard passes never raises and
    its outcome, as classified by [JoinOrDie], is yielded. *)
Lemma assigned_executor_yields_outcome (env : Env)
    (self : PhaseExecutor.t) (phase : Phase) (rest : list Phase) :
  pending self = phase :: rest ->
  PhaseExecutor.skip_test phase (data self) = inr false ->
  has_test_state self = true ->
  exists o th pd,
    PhaseExecutorThread.JoinOrDie env
      (stop_at env (PhaseExecutor.attempts self))
      (PhaseExecutorThread.__init__ phase) (data self) = (inr o, th, pd)
    /\ PhaseExecutor.next env (PhaseExecutor.ExecutePhases self)
       = (Yield o,
          (Suspended,
           after_attempt self phase
             (if py_eq_PhaseResult (PhaseOutcome.phase_result o) CONTINUE
              then rest else phase :: rest) th pd o)).
Proof.
  intros Hq G A.
  destruct (ExecuteOnePhase_executed env self phase phase rest Hq G A)
    as (o & th & pd & HJ & _ & He).
  exists o, th, pd. split; [exact HJ|].
  rewrite (next_step env self phase rest Hq), He. reflexivity.
Qed.

(** C2, at the failing inputs: on an executor as [__init__] builds it,
    every attempt on a phase whose guard passes is logged and then raises
    AttributeError at line 190, out of _ExecuteOnePhase and out of the
    generator, which has ended; no thread was started, no outcome is
    yielded and the phase is still at the head of the queue. *)
Theorem executed_phase_raises_AttributeError (env : Env) (ts : TestState)
    (phase : Phase) (rest : list Phase) :
  pending_phases ts = phase :: rest ->
  PhaseExecutor.skip_test phase (phase_data ts) = inr false ->
  let self := PhaseExecutor.__init__ ts in
  PhaseExecutor._ExecuteOnePhase env self phase
  = (inl (AttributeError no_test_state), logged_attempt self phase)
  /\ PhaseExecutor.next env (PhaseExecutor.ExecutePhases self)
     = (Raised (AttributeError no_test_state),
        (Ended, logged_attempt self phase))
  /\ pending (logged_attempt self phase) = phase :: rest
  /\ data (logged_attempt self phase) = phase_data ts
  /\ PhaseExecutor._current_phase (logged_attempt self phase) = None
  /\ PhaseExecutor._LOG (logged_attempt self phase)
     = [Executing (name phase) (plugs (phase_data ts))].
Proof.
  intros Hq G self.
  assert (He : PhaseExecutor._ExecuteOnePhase env self phase
               = (inl (AttributeError no_test_state),
                  logged_attempt self phase)).
  { apply ExecuteOnePhase_unassigned; [exact G | reflexivity]. }
  split; [exact He|].
  split; [rewrite (next_step env self phase rest Hq), He; reflexivity|].
  split; [exact Hq|]. repeat split.
Qed.

Lemma executed_phase_raises_AttributeError_witness :
  let ts := {| pending_phases := [leaky]; phase_data := fresh_data;
               running_phase := None |} in
  pending_phases ts = [leaky]
  /\ PhaseExecutor.skip_test leaky (phase_data ts) = inr false
  /\ PhaseExecutor.next quiet_env
       (PhaseExecutor.ExecutePhases (executor_on [leaky]))
     = (Raised (AttributeError no_test_state),
        (Ended, logged_attempt (executor_on [leaky]) leaky))
  /\ PhaseExecutor._current_phase (logged_attempt (executor_on [leaky]) leaky)
     = None.
Proof.
  cbv zeta. split; [reflexivity|]. split; [reflexivity|].
  pose proof (executed_phase_raises_AttributeError quiet_env
                {| pending_phases := [leaky]; phase_data := fresh_data;
                   running_phase := None |} leaky [] eq_refl eq_refl)
    as (_ & Hnext & _ & _ & Hcur & _).
  split; [exact Hnext | exact Hcur].
Defined.

(** C5. For an attempt on the phase at the head of the queue whose guard
    passes: if the attempt ends at line 190 the queue is as it was;
    otherwise the outcome is the one JoinOrDie returned for that phase,
    and the queue afterwards is the queue without its head exactly when
    that outcome is the CONTINUE result; on every other outcome, REPEAT
    among them, the queue is as it was, and after REPEAT the next pass of
    the loop executes the same phase again. *)
Theorem queue_popped_exactly_on_CONTINUE (env : Env)
    (self : PhaseExecutor.t) (phase : Phase) (rest : list Phase) :
  pending self = phase :: rest ->
  PhaseExecutor.skip_test phase (data self) = inr false ->
  match PhaseExecutor._test_state self with
  | None =>
      exists exc self',
        PhaseExecutor._ExecuteOnePhase env self phase = (inl exc, self')
        /\ pending self' = phase :: rest
  | Some _ =>
      exists o th pd self',
        PhaseExecutorThread.JoinOrDie env
          (stop_at env (PhaseExecutor.attempts self))
          (PhaseExecutorThread.__init__ phase) (data self) = (inr o, th, pd)
        /\ PhaseExecutor._ExecuteOnePhase env self phase
           = (inr (Some o), self')
        /\ data self' = pd
        /\ (pending self' = rest
            <-> PhaseOutcome.phase_result o = PyPhaseResult CONTINUE)
        /\ (pending self' = pending self
            <-> PhaseOutcome.phase_result o <> PyPhaseResult CONTINUE)
        /\ (PhaseOutcome.phase_result o = PyPhaseResult REPEAT ->
            pending self' = phase :: rest
            /\ forall fuel,
                PhaseExecutor.ExecutePhases_loop (S fuel) env self'
                = match PhaseExecutor._ExecuteOnePhase env self' phase with
                  | (inl exc, s) => (Raised exc, s)
                  | (inr None, s) =>
                      PhaseExecutor.ExecutePhases_loop fuel env s
                  | (inr (Some o'), s) => (Yield o', s)
                  end)
  end.
Proof.
  intros Hq G.
  destruct (PhaseExecutor._test_state self) as [ref | ] eqn:T.
  - assert (A : has_test_state self = true).
    { unfold has_test_state. rewrite T. reflexivity. }
    destruct (ExecuteOnePhase_executed env self phase phase rest Hq G A)
      as (o & th & pd & HJ & _ & He).
    exists o, th, pd. eexists. split; [exact HJ|]. split; [exact He|].
    split; [reflexivity|].
    destruct (current_after_attempt self phase
                (if py_eq_PhaseResult (PhaseOutcome.phase_result o) CONTINUE
                 then rest else phase :: rest) th pd o) as (-> & _ & _).
    rewrite Hq.
    destruct (py_eq_PhaseResult (PhaseOutcome.phase_result o) CONTINUE)
      eqn:C.
    + apply eq_CONTINUE in C. rewrite C.
      split; [split; reflexivity|].
      split; [|discriminate].
      split; [intros E; exfalso; exact (tail_differs phase rest E)|].
      intros N; exfalso; apply N; reflexivity.
    + assert (N : PhaseOutcome.phase_result o <> PyPhaseResult CONTINUE).
      { intros E. apply eq_CONTINUE in E. congruence. }
      split.
      { split; [|intros E; contradiction].
        intros E. exfalso. exact (tail_differs phase rest (eq_sym E)). }
      split; [split; [intros _; exact N | reflexivity]|].
      intros _. split; [reflexivity|].
      intros fuel. apply (loop_step fuel env _ phase rest). reflexivity.
  - rewrite (ExecuteOnePhase_unassigned env self phase G T).
    do 2 eexists. split; [reflexivity | exact Hq].
Qed.

Lemma queue_popped_exactly_on_CONTINUE_witness :
  let going := returning "A" no_options (PyPhaseResult CONTINUE) in
  let last := returning "B" no_options PyNone in
  let self := assigned (executor_on [going; last]) in
  pending self = [going; last]
  /\ PhaseExecutor.skip_test going (data self) = inr false
  /\ PhaseOutcome.phase_result
       (PhaseOutcome.namedtuple (PyPhaseResult CONTINUE))
     = PyPhaseResult CONTINUE
  /\ exists self',
      PhaseExecutor._ExecuteOnePhase quiet_env self going
      = (inr (Some (PhaseOutcome.namedtuple (PyPhaseResult CONTINUE))), self')
      /\ pending self' = [last].
Proof.
  cbv zeta. split; [reflexivity|]. split; [reflexivity|].
  split; [reflexivity|].
  destruct (queue_popped_exactly_on_CONTINUE quiet_env
              (assigned
                 (executor_on
                    [returning "A" no_options (PyPhaseResult CONTINUE);
                     returning "B" no_options PyNone]))
              (returning "A" no_options (PyPhaseResult CONTINUE))
              [returning "B" no_options PyNone] eq_refl eq_refl)
    as (o & th & pd & self' & HJ & He & _ & Hpop & _).
  vm_compute in HJ. injection HJ as <- _ _.
  exists self'. split; [exact He|].
  apply Hpop. reflexivity.
Defined.

Lemma attempts_log_skipped (rest : list Phase) (nm : string)
    (self : PhaseExecutor.t) :
  PhaseExecutor.attempts
    (PhaseExecutor.set_pending_phases rest
       (PhaseExecutor.log (Skipped nm) self))
  = PhaseExecutor.attempts self.
Proof.
  unfold PhaseExecutor.attempts.
  cbn [PhaseExecutor.set_pending_phases PhaseExecutor.log
       PhaseExecutor._LOG].
  rewrite filter_app, length_app. cbn. lia.
Qed.

(** C8. When the phase at the head of the queue has a run_if guard that
    evaluates falsey, _ExecuteOnePhase returns no outcome, starts no
    thread and leaves the execution context and the current thread as
    they were, logs the skip, and takes the phase off the front of the
    queue.  The loop then goes on with the next pending phase: if there
    is none the generator ends, and otherwise what the same next() does
    is what _ExecuteOnePhase does on the phase that follows: its
    exception is raised, its outcome is yielded, and if it is skipped as
    well the loop goes on behind it. *)
Theorem falsey_guard_skips_phase (env : Env) (self : PhaseExecutor.t)
    (phase : Phase) (rest : list Phase)
    (guard : PhaseData -> raising bool) :
  pending self = phase :: rest ->
  run_if (options phase) = Some guard ->
  guard (data self) = inr false ->
  exists self',
    PhaseExecutor._ExecuteOnePhase env self phase = (inr None, self')
    /\ pending self' = rest
    /\ data self' = data self
    /\ PhaseExecutor.attempts self' = PhaseExecutor.attempts self
    /\ PhaseExecutor._current_phase self'
       = PhaseExecutor._current_phase self
    /\ PhaseExecutor._LOG self'
       = PhaseExecutor._LOG self ++ [Skipped (name phase)]
    /\ PhaseExecutor.next env (PhaseExecutor.ExecutePhases self)
       = PhaseExecutor.next env (PhaseExecutor.ExecutePhases self')
    /\ PhaseExecutor.next env (PhaseExecutor.ExecutePhases self)
       = match rest with
         | [] => (StopIteration, (Ended, self'))
         | following :: _ =>
             match PhaseExecutor._ExecuteOnePhase env self' following with
             | (inl exc, s) => (Raised exc, (Ended, s))
             | (inr (Some o), s) => (Yield o, (Suspended, s))
             | (inr None, s) =>
                 PhaseExecutor.next env (PhaseExecutor.ExecutePhases s)
             end
         end.
Proof.
  intros Hq Hg Hf.
  assert (G : PhaseExecutor.skip_test phase (data self) = inr true).
  { apply skip_test_true. exists guard. split; assumption. }
  pose proof (ExecuteOnePhase_skipped env self phase phase rest Hq G) as He.
  set (self' := PhaseExecutor.set_pending_phases rest
                  (PhaseExecutor.log (Skipped (name phase)) self)) in *.
  assert (Hq' : pending self' = rest) by reflexivity.
  assert (Hnext : PhaseExecutor.next env (PhaseExecutor.ExecutePhases self)
                  = PhaseExecutor.next env
                      (PhaseExecutor.ExecutePhases self')).
  { rewrite (next_step env self phase rest Hq), He. reflexivity. }
  exists self'. split; [exact He|].
  split; [reflexivity|]. split; [reflexivity|].
  split; [apply attempts_log_skipped|].
  split; [reflexivity|]. split; [reflexivity|].
  split; [exact Hnext|].
  rewrite Hnext.
  destruct rest as [ | following rest'].
  - apply next_empty. exact Hq'.
  - rewrite (next_step env self' following rest' Hq').
    destruct (PhaseExecutor.skip_test following (data self'))
      as [exc | [ | ]] eqn:G'.
    + rewrite (ExecuteOnePhase_guard_raises env self' following exc G').
      reflexivity.
    + rewrite (ExecuteOnePhase_skipped env self' following following rest'
                 Hq' G').
      reflexivity.
    + destruct (has_test_state_cases self') as [[A _] | [_ N]].
      * destruct (ExecuteOnePhase_executed env self' following following
                    rest' Hq' G' A) as (o & th & pd & _ & _ & ->).
        reflexivity.
      * rewrite (ExecuteOnePhase_unassigned env self' following G' N).
        reflexivity.
Qed.

(** On the queue [A, B], where the guard of A is falsey and B has none: A
    is skipped and the same next() goes on to B.  When [_test_state] has
    been assigned, B is run and its CONTINUE is yielded; on the executor
    as [__init__] builds it, the attempt on B is logged and ends at
    line 190. *)
Lemma falsey_guard_skips_phase_witness :
  let skipped := returning "A" never_run PyNone in
  let after := returning "B" no_options PyNone in
  let self := assigned (executor_on [skipped; after]) in
  pending self = [skipped; after]
  /\ run_if (options skipped) = Some (fun _ => inr false)
  /\ (exists self',
         PhaseExecutor._ExecuteOnePhase quiet_env self skipped
         = (inr None, self')
         /\ pending self' = [after]
         /\ PhaseExecutor._LOG self' = [Skipped "A"]
         /\ PhaseExecutor.next quiet_env (PhaseExecutor.ExecutePhases self)
            = match PhaseExecutor._ExecuteOnePhase quiet_env self' after with
              | (inl exc, s) => (Raised exc, (Ended, s))
              | (inr (Some o), s) => (Yield o, (Suspended, s))
              | (inr None, s) =>
                  PhaseExecutor.next quiet_env
                    (PhaseExecutor.ExecutePhases s)
              end)
  /\ fst (PhaseExecutor.next quiet_env (PhaseExecutor.ExecutePhases self))
     = Yield (PhaseOutcome.namedtuple (PyPhaseResult CONTINUE))
  /\ PhaseExecutor._LOG
       (snd (snd (PhaseExecutor.next quiet_env
                    (PhaseExecutor.ExecutePhases self))))
     = [Skipped "A"; Executing "B" [];
        FinishedWith (PhaseOutcome.namedtuple (PyPhaseResult CONTINUE))]
  /\ PhaseExecutor.next quiet_env
       (PhaseExecutor.ExecutePhases (executor_on [skipped; after]))
     = (Raised (AttributeError no_test_state),
        (Ended,
         logged_attempt
           (after_skips (executor_on [skipped; after]) [skipped] [after])
           after)).
Proof.
  cbv zeta. split; [reflexivity|]. split; [reflexivity|].
  split.
  { destruct (falsey_guard_skips_phase quiet_env
                (assigned
                   (executor_on [returning "A" never_run PyNone;
                                 returning "B" no_options PyNone]))
                (returning "A" never_run PyNone)
                [returning "B" no_options PyNone]
                (fun _ => inr false) eq_refl eq_refl eq_refl)
      as (self' & He & Hq & _ & _ & _ & Hlog & _ & Hnext).
    exists self'. repeat split; assumption. }
  split; [vm_compute; reflexivity|].
  split; vm_compute; reflexivity.
Defined.

(** C9. Stop() never touches the test state, and so never the pending
    queue, nor the log.  With no current thread it changes nothing.  With
    a current thread it hands that thread one Kill(): if the thread is
    running, exactly one termination request reaches it; if the thread has
    already ended, nothing changes. *)
Theorem Stop_forwards_Kill_and_keeps_queue (self : PhaseExecutor.t) :
  PhaseExecutor.test_state (PhaseExecutor.Stop self)
  = PhaseExecutor.test_state self
  /\ pending (PhaseExecutor.Stop self) = pending self
  /\ PhaseExecutor._LOG (PhaseExecutor.Stop self) = PhaseExecutor._LOG self
  /\ match PhaseExecutor._current_phase self with
     | None => PhaseExecutor.Stop self = self
     | Some current =>
         PhaseExecutor._current_phase (PhaseExecutor.Stop self)
         = Some (PhaseExecutorThread.Kill current)
         /\ if PhaseExecutorThread.alive current
            then PhaseExecutorThread.kill_requests
                   (PhaseExecutorThread.Kill current)
                 = S (PhaseExecutorThread.kill_requests current)
                 /\ PhaseExecutorThread._phase_outcome
                      (PhaseExecutorThread.Kill current)
                    = PhaseExecutorThread._phase_outcome current
                 /\ PhaseExecutorThread.alive
                      (PhaseExecutorThread.Kill current) = true
            else PhaseExecutor.Stop self = self
     end.
Proof.
  unfold PhaseExecutor.Stop, pending.
  destruct self as [ts cp [current | ] ref lg]; cbn; [|repeat split].
  repeat split.
  unfold PhaseExecutorThread.Kill.
  destruct (PhaseExecutorThread.alive current) eqn:A; repeat split.
Qed.

(** C10. Every PhaseOutcome, the Timeout (whose phase_result is None) and
    the Error among them, is a tuple of exactly one field and hence
    truthy.  So for the phase at the head of the queue, whatever outcome
    _ExecuteOnePhase returns is yielded by the generator, and the test
    [not result] sends the loop on without yielding only when
    _ExecuteOnePhase returned nothing, which happens only when the guard
    made it skip the phase.  When _ExecuteOnePhase raises, from the guard
    or at line 190, nothing is yielded either, and the exception leaves
    the generator. *)
Theorem emptiness_test_drops_only_skips (env : Env)
    (self : PhaseExecutor.t) (phase : Phase) (rest : list Phase) :
  pending self = phase :: rest ->
  (forall o, List.length (PhaseOutcome.as_tuple o) = 1%nat
             /\ PhaseOutcome.truthy o = true)
  /\ (forall v o, PhaseOutcome.__init__ v = inr o ->
                  PhaseOutcome.as_tuple o = [v])
  /\ (exists o, PhaseOutcome.__init__ PyNone = inr o
                /\ PhaseOutcome.is_timeout o = true
                /\ PhaseOutcome.truthy o = true)
  /\ match PhaseExecutor._ExecuteOnePhase env self phase with
     | (inr (Some o), self') =>
         PhaseExecutor.skip_test phase (data self) = inr false
         /\ PhaseExecutor.next env (PhaseExecutor.ExecutePhases self)
            = (Yield o, (Suspended, self'))
     | (inr None, self') =>
         PhaseExecutor.skip_test phase (data self) = inr true
         /\ PhaseExecutor.next env (PhaseExecutor.ExecutePhases self)
            = PhaseExecutor.next env (PhaseExecutor.ExecutePhases self')
     | (inl exc, self') =>
         (PhaseExecutor.skip_test phase (data self) = inl exc
          \/ (PhaseExecutor.skip_test phase (data self) = inr false
              /\ PhaseExecutor._test_state self = None
              /\ exc = AttributeError no_test_state))
         /\ PhaseExecutor.next env (PhaseExecutor.ExecutePhases self)
            = (Raised exc, (Ended, self'))
     end.
Proof.
  intros Hq.
  split; [intros o; split; [reflexivity | apply outcome_truthy]|].
  split.
  { intros v o E. unfold PhaseOutcome.as_tuple.
    rewrite (init_stores v o E). reflexivity. }
  split; [eexists; repeat split|].
  rewrite (next_step env self phase rest Hq).
  destruct (PhaseExecutor.skip_test phase (data self))
    as [exc | [ | ]] eqn:G.
  - rewrite (ExecuteOnePhase_guard_raises env self phase exc G).
    split; [left; reflexivity | reflexivity].
  - rewrite (ExecuteOnePhase_skipped env self phase phase rest Hq G).
    split; reflexivity.
  - destruct (has_test_state_cases self) as [[A _] | [_ N]].
    + destruct (ExecuteOnePhase_executed env self phase phase rest Hq G A)
        as (o & th & pd & _ & _ & ->).
      split; reflexivity.
    + rewrite (ExecuteOnePhase_unassigned env self phase G N).
      split; [right; repeat split; assumption | reflexivity].
Qed.

(** On the queue [hanging]: with [_test_state] assigned, the Timeout,
    whose phase_result is None, is yielded and not dropped; on the
    executor as [__init__] builds it, the attempt ends at line 190 and
    nothing is yielded. *)
Lemma emptiness_test_drops_only_skips_witness :
  pending (executor_on [hanging]) = [hanging]
  /\ pending (assigned (executor_on [hanging])) = [hanging]
  /\ (forall o, List.length (PhaseOutcome.as_tuple o) = 1%nat
                /\ PhaseOutcome.truthy o = true)
  /\ (exists self',
         PhaseExecutor.next quiet_env
           (PhaseExecutor.ExecutePhases (assigned (executor_on [hanging])))
         = (Yield (PhaseOutcome.namedtuple PyNone), (Suspended, self')))
  /\ (exists self',
         PhaseExecutor.next quiet_env
           (PhaseExecutor.ExecutePhases (executor_on [hanging]))
         = (Raised (AttributeError no_test_state), (Ended, self'))).
Proof.
  split; [reflexivity|]. split; [reflexivity|].
  pose proof (emptiness_test_drops_only_skips quiet_env
                (assigned (executor_on [hanging])) hanging [] eq_refl)
    as (Htruthy & _ & _ & Hyield).
  pose proof (emptiness_test_drops_only_skips quiet_env
                (executor_on [hanging]) hanging [] eq_refl)
    as (_ & _ & _ & Hraise).
  split; [exact Htruthy|].
  split; eexists; [exact (proj2 Hyield) | exact (proj2 Hraise)].
Defined.




(** The run of the spec's example, with [_test_state] assigned: A returns
    CONTINUE, B returns REPEAT once and then CONTINUE, C returns CONTINUE;
    four outcomes are yielded and the queue ends empty. *)
Example three_phase_run :
  let gen0 :=
    PhaseExecutor.ExecutePhases
      (assigned
         (executor_on [returning "A" no_options PyNone; twice;
                       returning "C" no_options (PyPhaseResult CONTINUE)])) in
  let '(os, (frame, self)) := PhaseExecutor.take 5 quiet_env gen0 in
  map PhaseOutcome.phase_result os
  = [PyPhaseResult CONTINUE; PyPhaseResult REPEAT;
     PyPhaseResult CONTINUE; PyPhaseResult CONTINUE]
  /\ frame = Ended /\ pending self = [].
Proof. vm_compute. repeat split. Qed.

(** The same queue on the executor as [__init__] builds it: the first
    next() logs the attempt on A and raises at line 190; nothing is
    yielded and the queue keeps all three phases. *)
Example three_phase_run_as_built :
  let gen0 :=
    PhaseExecutor.ExecutePhases
      (executor_on [returning "A" no_options PyNone; twice;
                    returning "C" no_options (PyPhaseResult CONTINUE)]) in
  fst (PhaseExecutor.next quiet_env gen0)
  = Raised (AttributeError no_test_state)
  /\ fst (PhaseExecutor.take 5 quiet_env gen0) = []
  /\ map name (pending (snd (snd (PhaseExecutor.take 5 quiet_env gen0))))
     = ["A"; "twice"; "C"].
Proof. vm_compute. repeat split. Qed.

(** A Stop() from outside that lands while the phase hangs ends the wait
    with the termination error. *)
Example stopped_phase_run :
  fst (PhaseExecutor.take 1 stopping_env
         (PhaseExecutor.ExecutePhases (assigned (executor_on [hanging]))))
  = [PhaseOutcome.namedtuple (PyExc ThreadTerminationError)].
Proof. vm_compute. reflexivity. Qed.
(** * Further properties *)

(** ** Outcomes and the phase thread *)

(** X1. An outcome that was constructed is of exactly one kind: the
    Timeout, an Error, or a valid phase result; [is_timeout] and
    [raised_exception] are never both true, and both are false exactly
    for CONTINUE, REPEAT and FAIL. *)
Theorem outcome_is_of_exactly_one_kind (v : PyValue) (o : PhaseOutcome.t) :
  PhaseOutcome.__init__ v = inr o ->
  match PhaseOutcome.is_timeout o, PhaseOutcome.raised_exception o with
  | true, false => PhaseOutcome.phase_result o = PyNone
  | false, true => exists exc, PhaseOutcome.phase_result o = PyExc exc
  | false, false =>
      PhaseOutcome.phase_result o = PyPhaseResult CONTINUE
      \/ PhaseOutcome.phase_result o = PyPhaseResult REPEAT
      \/ PhaseOutcome.phase_result o = PyPhaseResult FAIL
  | true, true => False
  end.
Proof.
  intros E. pose proof (init_stores v o E) as Hv.
  unfold PhaseOutcome.is_timeout, PhaseOutcome.raised_exception.
  rewrite Hv.
  destruct v as [ | [ | | | | ] | exc | n | s ]; cbn;
    try discriminate E; eauto.
Qed.

Lemma outcome_is_of_exactly_one_kind_witness :
  PhaseOutcome.__init__ (PyPhaseResult REPEAT)
  = inr (PhaseOutcome.namedtuple (PyPhaseResult REPEAT))
  /\ (PyPhaseResult REPEAT = PyPhaseResult CONTINUE
      \/ PyPhaseResult REPEAT = PyPhaseResult REPEAT
      \/ PyPhaseResult REPEAT = PyPhaseResult FAIL).
Proof.
  split; [reflexivity|].
  exact (outcome_is_of_exactly_one_kind (PyPhaseResult REPEAT)
           (PhaseOutcome.namedtuple (PyPhaseResult REPEAT)) eq_refl).
Defined.


(** X3. When the phase returns in time, whatever it returns, JoinOrDie
    hands back the execution context with an empty exit stack: every
    resource the phase registered and every resource still registered
    from before has been released, newest first.  On every other path
    (raise, timeout, termination) the stack keeps what the phase
    registered and nothing is released. *)
Theorem exit_stack_after_JoinOrDie (env : Env) (kill_at : option Q)
    (phase : Phase) (pd : PhaseData) :
  exists o self' pd',
    PhaseExecutorThread.JoinOrDie env kill_at
      (PhaseExecutorThread.__init__ phase) pd = (inr o, self', pd')
    /\ match PhaseExecutorThread.progress
               (PhaseExecutorThread.join_timeout env
                  (PhaseExecutorThread.__init__ phase)) kill_at
               (call phase pd) with
       | Finished (Returns _) =>
           context pd' = []
           /\ closed pd'
              = closed pd ++ rev (acquires (call phase pd)) ++ context pd
       | _ =>
           context pd' = rev (acquires (call phase pd)) ++ context pd
           /\ closed pd' = closed pd
       end.
Proof.
  unfold PhaseExecutorThread.JoinOrDie, PhaseExecutorThread.join.
  destruct (PhaseExecutorThread.progress _ _ _) as [[v | exc] | | ].
  - destruct v as [ | [ | | | | ] | exc | n | s ]; simpl;
      do 3 eexists; (split; [reflexivity|]); split; reflexivity.
  - simpl. do 3 eexists. split; [reflexivity|]. split; reflexivity.
  - simpl. do 3 eexists. split; [reflexivity|]. split; reflexivity.
  - simpl. do 3 eexists. split; [reflexivity|]. split; reflexivity.
Qed.

(** X4. The phase's exception is written to the context's logger exactly
    when the thread procedure raised, that is, when the phase raised or
    returned a value that PhaseOutcome refuses; then one record naming the
    phase is added.  A phase that returns in time with an accepted value,
    an Exception instance among them, one that times out and one that is
    terminated leave the logger as it was. *)
Theorem exception_logged_when_thread_raised (env : Env)
    (kill_at : option Q) (phase : Phase) (pd : PhaseData) :
  exists o self' pd',
    PhaseExecutorThread.JoinOrDie env kill_at
      (PhaseExecutorThread.__init__ phase) pd = (inr o, self', pd')
    /\ logger pd'
       = match PhaseExecutorThread.progress
                 (PhaseExecutorThread.join_timeout env
                    (PhaseExecutorThread.__init__ phase)) kill_at
                 (call phase pd) with
         | Finished (Raises _) =>
             logger pd
               ++ [("Phase " ++ name phase ++ " raised an exception")%string]
         | Finished (Returns v) =>
             if match v with PyNone => true | _ => false end
                || isinstance_Exception v || is_valid_PhaseResult v
             then logger pd
             else logger pd
                    ++ [("Phase " ++ name phase
                           ++ " raised an exception")%string]
         | _ => logger pd
         end.
Proof.
  unfold PhaseExecutorThread.JoinOrDie, PhaseExecutorThread.join.
  destruct (PhaseExecutorThread.progress _ _ _) as [[v | exc] | | ].
  - destruct v as [ | [ | | | | ] | exc | n | s ]; simpl;
      do 3 eexists; split; reflexivity.
  - simpl. do 3 eexists. split; reflexivity.
  - simpl. do 3 eexists. split; reflexivity.
  - simpl. do 3 eexists. split; reflexivity.
Qed.


(** ** Passing over skipped phases *)

Lemma after_skips_nil (self : PhaseExecutor.t) :
  after_skips self [] (pending self) = self.
Proof.
  destruct self as [[q pd rp] cp cur ref lg].
  unfold after_skips, pending, data. cbn. rewrite app_nil_r. reflexivity.
Qed.

Lemma after_skips_cons (self : PhaseExecutor.t) (p : Phase)
    (skipped remaining q : list Phase) :
  after_skips
    (PhaseExecutor.set_pending_phases q
       (PhaseExecutor.log (Skipped (name p)) self)) skipped remaining
  = after_skips self (p :: skipped) remaining.
Proof.
  unfold after_skips, data. cbn. rewrite <- app_assoc. reflexivity.
Qed.

Lemma attempts_after_skips (self : PhaseExecutor.t)
    (skipped remaining : list Phase) :
  PhaseExecutor.attempts (after_skips self skipped remaining)
  = PhaseExecutor.attempts self.
Proof.
  unfold PhaseExecutor.attempts, after_skips. cbn [PhaseExecutor._LOG].
  rewrite filter_app, length_app.
  induction skipped as [ | p skipped IH]; cbn in *; lia.
Qed.

(** The loop passes over a front of skipped phases, one pass each. *)
Lemma loop_skips (skipped : list Phase) (fuel : nat) (env : Env)
    (self : PhaseExecutor.t) (remaining : list Phase) :
  pending self = skipped ++ remaining ->
  Forall (skipped_on (data self)) skipped ->
  PhaseExecutor.ExecutePhases_loop (List.length skipped + fuel) env self
  = PhaseExecutor.ExecutePhases_loop fuel env
      (after_skips self skipped remaining).
Proof.
  revert self. induction skipped as [ | p skipped IH]; intros self Hq Hall.
  - cbn [app] in Hq. rewrite <- Hq, after_skips_nil. reflexivity.
  - inversion Hall as [ | p' l' Hp Hrest]; subst.
    cbn [List.length plus].
    rewrite (loop_step _ env self p (skipped ++ remaining) Hq).
    rewrite (ExecuteOnePhase_skipped env self p p (skipped ++ remaining)
               Hq Hp).
    rewrite (IH _ (pending_skipped _ _ _) Hrest).
    rewrite after_skips_cons. reflexivity.
Qed.

Lemma next_after_skips (env : Env) (self : PhaseExecutor.t)
    (skipped remaining : list Phase) :
  pending self = skipped ++ remaining ->
  Forall (skipped_on (data self)) skipped ->
  PhaseExecutor.next env (PhaseExecutor.ExecutePhases self)
  = PhaseExecutor.next env
      (PhaseExecutor.ExecutePhases (after_skips self skipped remaining)).
Proof.
  intros Hq Hall.
  unfold PhaseExecutor.next, PhaseExecutor.ExecutePhases.
  pose proof Hq as Hq'. unfold pending in Hq'. rewrite Hq'.
  rewrite length_app.
  replace (S (List.length skipped + List.length remaining))
    with (List.length skipped + S (List.length remaining))%nat by lia.
  rewrite (loop_skips skipped _ env self remaining Hq Hall).
  reflexivity.
Qed.

(** Every queue is a front of skipped phases followed by nothing or by a
    phase that the guard test does not skip. *)
Lemma split_skipped (pd : PhaseData) (q : list Phase) :
  exists skipped remaining,
    q = skipped ++ remaining
    /\ Forall (skipped_on pd) skipped
    /\ match remaining with
       | [] => True
       | p :: _ => PhaseExecutor.skip_test p pd <> inr true
       end.
Proof.
  induction q as [ | p q (skipped & remaining & Hq & Hall & Hhead)].
  - exists [], []. repeat split. constructor.
  - destruct (PhaseExecutor.skip_test p pd) as [exc | [ | ]] eqn:G.
    + exists [], (p :: q). repeat split; [constructor|].
      rewrite G. discriminate.
    + exists (p :: skipped), remaining. subst q.
      repeat split; [constructor; assumption | exact Hhead].
    + exists [], (p :: q). repeat split; [constructor|].
      rewrite G. discriminate.
Qed.

(** What one [next()] does, by the first pending phase that is not
    skipped and by whether the executor has the attribute
    [_test_state]. *)
Lemma next_cases (env : Env) (self : PhaseExecutor.t) :
  exists skipped remaining,
    pending self = skipped ++ remaining
    /\ Forall (skipped_on (data self)) skipped
    /\ match remaining with
       | [] =>
           PhaseExecutor.next env (PhaseExecutor.ExecutePhases self)
           = (StopIteration, (Ended, after_skips self skipped []))
       | p :: rest =>
           match PhaseExecutor.skip_test p (data self) with
           | inl exc =>
               PhaseExecutor.next env (PhaseExecutor.ExecutePhases self)
               = (Raised exc,
                  (Ended, after_skips self skipped (p :: rest)))
           | inr true => False
           | inr false =>
               if has_test_state self
               then
                 exists o th pd,
                   PhaseExecutorThread.JoinOrDie env
                     (stop_at env (PhaseExecutor.attempts self))
                     (PhaseExecutorThread.__init__ p) (data self)
                   = (inr o, th, pd)
                   /\ PhaseExecutor.next env
                        (PhaseExecutor.ExecutePhases self)
                      = (Yield o,
                         (Suspended,
                          after_attempt
                            (after_skips self skipped (p :: rest)) p
                            (if py_eq_PhaseResult
                                  (PhaseOutcome.phase_result o) CONTINUE
                             then rest else p :: rest)
                            th pd o))
               else
                 PhaseExecutor.next env (PhaseExecutor.ExecutePhases self)
                 = (Raised (AttributeError no_test_state),
                    (Ended,
                     logged_attempt
                       (after_skips self skipped (p :: rest)) p))
           end
       end.
Proof.
  destruct (split_skipped (data self) (pending self))
    as (skipped & remaining & Hq & Hall & Hhead).
  exists skipped, remaining. split; [exact Hq|]. split; [exact Hall|].
  rewrite (next_after_skips env self skipped remaining Hq Hall).
  destruct remaining as [ | p rest]; [reflexivity|].
  set (mid := after_skips self skipped (p :: rest)).
  assert (Hm : pending mid = p :: rest) by reflexivity.
  assert (Ha : has_test_state mid = has_test_state self) by reflexivity.
  rewrite (next_step env mid p rest Hm).
  destruct (PhaseExecutor.skip_test p (data self)) as [exc | [ | ]] eqn:G.
  - rewrite (ExecuteOnePhase_guard_raises env mid p exc G). reflexivity.
  - apply Hhead. reflexivity.
  - destruct (has_test_state self) eqn:A.
    + destruct (ExecuteOnePhase_executed env mid p p rest Hm G Ha)
        as (o & th & pd & HJ & _ & He).
      exists o, th, pd. split.
      * subst mid. rewrite attempts_after_skips in HJ. exact HJ.
      * rewrite He. reflexivity.
    + assert (N : PhaseExecutor._test_state mid = None).
      { destruct (has_test_state_cases mid) as [[A' _] | [_ N]];
          [congruence | exact N]. }
      rewrite (ExecuteOnePhase_unassigned env mid p G N). reflexivity.
Qed.

(** ** How a call of [next()] ends *)

(** X5. A next() on the suspended generator ends it without an outcome
    exactly when the guard of every pending phase says skip, an empty
    queue included; the queue is then empty, a skip is logged for each
    phase, and no thread was started: the execution context, the current
    thread and the count of attempts are as before. *)
Theorem generator_ends_exactly_when_all_skipped (env : Env)
    (self : PhaseExecutor.t) :
  (fst (PhaseExecutor.next env (PhaseExecutor.ExecutePhases self))
   = StopIteration
   <-> Forall (skipped_on (data self)) (pending self))
  /\ (Forall (skipped_on (data self)) (pending self) ->
      PhaseExecutor.next env (PhaseExecutor.ExecutePhases self)
      = (StopIteration, (Ended, after_skips self (pending self) []))).
Proof.
  assert (Hback : Forall (skipped_on (data self)) (pending self) ->
                  PhaseExecutor.next env (PhaseExecutor.ExecutePhases self)
                  = (StopIteration,
                     (Ended, after_skips self (pending self) []))).
  { intros Hall.
    rewrite (next_after_skips env self (pending self) []
               (eq_sym (app_nil_r _)) Hall).
    reflexivity. }
  split; [|exact Hback].
  split; [|intros Hall; rewrite (Hback Hall); reflexivity].
  intros Hstop.
  destruct (next_cases env self)
    as (skipped & remaining & Hq & Hall & Hnext).
  destruct remaining as [ | p rest].
  - rewrite Hq, app_nil_r. exact Hall.
  - destruct (PhaseExecutor.skip_test p (data self)) as [exc | [ | ]].
    + rewrite Hnext in Hstop. discriminate Hstop.
    + contradiction.
    + destruct (has_test_state self).
      * destruct Hnext as (o & th & pd & _ & Hnext).
        rewrite Hnext in Hstop. discriminate Hstop.
      * rewrite Hnext in Hstop. discriminate Hstop.
Qed.

(** X6. A next() raises in two ways only, both at the first pending
    phase that is not skipped: the run_if guard of that phase raised, or
    the guard passed and the executor has no attribute [_test_state], so
    that the attempt was logged and line 190 raised AttributeError.  Either
    way the phases before it were skipped, that phase stays at the head of
    the queue, no thread was started (the current thread and the execution
    context are as before), and the generator has ended. *)
Theorem generator_raises_from_guard_or_line_190 (env : Env)
    (self : PhaseExecutor.t) (exc : PyException)
    (gen' : Frame * PhaseExecutor.t) :
  PhaseExecutor.next env (PhaseExecutor.ExecutePhases self)
  = (Raised exc, gen') ->
  exists skipped p rest,
    pending self = skipped ++ p :: rest
    /\ Forall (skipped_on (data self)) skipped
    /\ fst gen' = Ended
    /\ pending (snd gen') = p :: rest
    /\ data (snd gen') = data self
    /\ PhaseExecutor._current_phase (snd gen')
       = PhaseExecutor._current_phase self
    /\ ((PhaseExecutor.skip_test p (data self) = inl exc
         /\ snd gen' = after_skips self skipped (p :: rest))
        \/ (PhaseExecutor.skip_test p (data self) = inr false
            /\ PhaseExecutor._test_state self = None
            /\ exc = AttributeError no_test_state
            /\ snd gen'
               = logged_attempt (after_skips self skipped (p :: rest)) p)).
Proof.
  intros H.
  destruct (next_cases env self)
    as (skipped & remaining & Hq & Hall & Hnext).
  destruct remaining as [ | p rest].
  - rewrite Hnext in H. discriminate H.
  - destruct (PhaseExecutor.skip_test p (data self))
      as [exc' | [ | ]] eqn:G.
    + rewrite Hnext in H. injection H as -> <-.
      exists skipped, p, rest.
      repeat split; try assumption. left. split; [exact G | reflexivity].
    + contradiction.
    + destruct (has_test_state_cases self) as [[A _] | [A N]];
        rewrite A in Hnext.
      * destruct Hnext as (o & th & pd & _ & Hnext).
        rewrite Hnext in H. discriminate H.
      * rewrite Hnext in H. injection H as <- <-.
        exists skipped, p, rest.
        repeat split; try assumption. right. repeat split; assumption.
Qed.

Lemma generator_raises_from_guard_or_line_190_witness :
  let skipped := returning "A" never_run PyNone in
  let run := returning "B" no_options PyNone in
  let self := executor_on [skipped; run] in
  let gen' :=
    snd (PhaseExecutor.next quiet_env (PhaseExecutor.ExecutePhases self)) in
  PhaseExecutor.next quiet_env (PhaseExecutor.ExecutePhases self)
  = (Raised (AttributeError no_test_state), gen')
  /\ exists skipped p rest,
      pending self = skipped ++ p :: rest
      /\ Forall (skipped_on (data self)) skipped
      /\ fst gen' = Ended
      /\ pending (snd gen') = p :: rest
      /\ data (snd gen') = data self
      /\ PhaseExecutor._current_phase (snd gen')
         = PhaseExecutor._current_phase self
      /\ ((PhaseExecutor.skip_test p (data self)
           = inl (AttributeError no_test_state)
           /\ snd gen' = after_skips self skipped (p :: rest))
          \/ (PhaseExecutor.skip_test p (data self) = inr false
              /\ PhaseExecutor._test_state self = None
              /\ AttributeError no_test_state = AttributeError no_test_state
              /\ snd gen'
                 = logged_attempt (after_skips self skipped (p :: rest)) p)).
Proof.
  cbv zeta. split; [vm_compute; reflexivity|].
  apply (generator_raises_from_guard_or_line_190 quiet_env
           (executor_on [returning "A" never_run PyNone;
                         returning "B" no_options PyNone])
           (AttributeError no_test_state)).
  vm_compute. reflexivity.
Defined.

(** X7. Phases run strictly in queue order: the outcome a next() yields
    is what JoinOrDie returned for the first pending phase whose guard
    does not say skip, run on the unchanged execution context; every
    phase before it was skipped, the executor has the attribute
    [_test_state], and afterwards the queue starts after that phase if
    the outcome is CONTINUE and at that phase otherwise. *)
Theorem yielded_outcome_is_of_first_unskipped_phase (env : Env)
    (self : PhaseExecutor.t) (o : PhaseOutcome.t)
    (gen' : Frame * PhaseExecutor.t) :
  PhaseExecutor.next env (PhaseExecutor.ExecutePhases self)
  = (Yield o, gen') ->
  exists skipped p rest th pd,
    pending self = skipped ++ p :: rest
    /\ Forall (skipped_on (data self)) skipped
    /\ PhaseExecutor.skip_test p (data self) = inr false
    /\ PhaseExecutor._test_state self <> None
    /\ PhaseExecutorThread.JoinOrDie env
         (stop_at env (PhaseExecutor.attempts self))
         (PhaseExecutorThread.__init__ p) (data self) = (inr o, th, pd)
    /\ fst gen' = Suspended
    /\ pending (snd gen')
       = (if py_eq_PhaseResult (PhaseOutcome.phase_result o) CONTINUE
          then rest else p :: rest)
    /\ data (snd gen') = pd
    /\ PhaseExecutor._current_phase (snd gen') = Some th
    /\ PhaseExecutor.attempts (snd gen')
       = S (PhaseExecutor.attempts self).
Proof.
  intros H.
  destruct (next_cases env self)
    as (skipped & remaining & Hq & Hall & Hnext).
  destruct remaining as [ | p rest].
  - rewrite Hnext in H. discriminate H.
  - destruct (PhaseExecutor.skip_test p (data self))
      as [exc' | [ | ]] eqn:G.
    + rewrite Hnext in H. discriminate H.
    + contradiction.
    + destruct (has_test_state_cases self) as [[A N] | [A _]];
        rewrite A in Hnext.
      * destruct Hnext as (o' & th & pd & HJ & Hnext).
        rewrite Hnext in H. injection H as -> <-.
        exists skipped, p, rest, th, pd.
        repeat split; try assumption.
        cbn [snd]. rewrite attempts_after_attempt, attempts_after_skips.
        reflexivity.
      * rewrite Hnext in H. discriminate H.
Qed.

Lemma yielded_outcome_is_of_first_unskipped_phase_witness :
  let skipped := returning "A" never_run PyNone in
  let run := returning "B" no_options (PyPhaseResult FAIL) in
  let self := assigned (executor_on [skipped; run]) in
  let gen' :=
    snd (PhaseExecutor.next quiet_env (PhaseExecutor.ExecutePhases self)) in
  let o := PhaseOutcome.namedtuple (PyPhaseResult FAIL) in
  PhaseExecutor.next quiet_env (PhaseExecutor.ExecutePhases self)
  = (Yield o, gen')
  /\ exists skipped p rest th pd,
      pending self = skipped ++ p :: rest
      /\ Forall (skipped_on (data self)) skipped
      /\ PhaseExecutor.skip_test p (data self) = inr false
      /\ PhaseExecutor._test_state self <> None
      /\ PhaseExecutorThread.JoinOrDie quiet_env
           (stop_at quiet_env (PhaseExecutor.attempts self))
           (PhaseExecutorThread.__init__ p) (data self) = (inr o, th, pd)
      /\ fst gen' = Suspended
      /\ pending (snd gen')
         = (if py_eq_PhaseResult (PhaseOutcome.phase_result o) CONTINUE
            then rest else p :: rest)
      /\ data (snd gen') = pd
      /\ PhaseExecutor._current_phase (snd gen') = Some th
      /\ PhaseExecutor.attempts (snd gen')
         = S (PhaseExecutor.attempts self).
Proof.
  cbv zeta. split; [vm_compute; reflexivity|].
  apply (yielded_outcome_is_of_first_unskipped_phase quiet_env
           (assigned
              (executor_on [returning "A" never_run PyNone;
                            returning "B" no_options (PyPhaseResult FAIL)]))
           (PhaseOutcome.namedtuple (PyPhaseResult FAIL))).
  vm_compute. reflexivity.
Defined.

(** ** Whole runs *)

Lemma take_S (n : nat) (env : Env) (gen : Frame * PhaseExecutor.t) :
  PhaseExecutor.take (S n) env gen
  = match PhaseExecutor.next env gen with
    | (Yield o, gen1) =>
        let '(os, gen2) := PhaseExecutor.take n env gen1 in (o :: os, gen2)
    | (_, gen1) => ([], gen1)
    end.
Proof. reflexivity. Qed.

Lemma attempts_logged_attempt (self : PhaseExecutor.t) (p : Phase) :
  PhaseExecutor.attempts (logged_attempt self p)
  = S (PhaseExecutor.attempts self).
Proof.
  unfold PhaseExecutor.attempts, logged_attempt.
  cbn [PhaseExecutor.log PhaseExecutor._LOG].
  rewrite filter_app, length_app. cbn. lia.
Qed.

(** One [next()] logs one attempt when it yields, at most one when it
    does not, and only takes phases off the front of the queue. *)
Lemma next_frame (env : Env) (gen : Frame * PhaseExecutor.t) :
  match fst (PhaseExecutor.next env gen) with
  | Yield _ =>
      PhaseExecutor.attempts (snd (snd (PhaseExecutor.next env gen)))
      = S (PhaseExecutor.attempts (snd gen))
  | _ =>
      (PhaseExecutor.attempts (snd gen)
       <= PhaseExecutor.attempts (snd (snd (PhaseExecutor.next env gen)))
       <= S (PhaseExecutor.attempts (snd gen)))%nat
  end
  /\ exists dropped,
      pending (snd gen)
      = dropped ++ pending (snd (snd (PhaseExecutor.next env gen))).
Proof.
  destruct gen as [[ | ] self]; cbn [snd].
  - change (Suspended, self) with (PhaseExecutor.ExecutePhases self).
    destruct (next_cases env self)
      as (skipped & remaining & Hq & Hall & Hnext).
    destruct remaining as [ | p rest].
    + rewrite Hnext. cbn [fst snd]. rewrite attempts_after_skips.
      split; [lia|]. exists skipped. exact Hq.
    + destruct (PhaseExecutor.skip_test p (data self)) as [exc | [ | ]].
      * rewrite Hnext. cbn [fst snd]. rewrite attempts_after_skips.
        split; [lia|]. exists skipped. exact Hq.
      * contradiction.
      * destruct (has_test_state self).
        -- destruct Hnext as (o & th & pd & _ & Hnext).
           rewrite Hnext. cbn [fst snd].
           rewrite attempts_after_attempt, attempts_after_skips.
           split; [reflexivity|].
           destruct (current_after_attempt
                       (after_skips self skipped (p :: rest)) p
                       (if py_eq_PhaseResult
                             (PhaseOutcome.phase_result o) CONTINUE
                        then rest else p :: rest) th pd o) as (-> & _ & _).
           destruct (py_eq_PhaseResult _ CONTINUE).
           ++ exists (skipped ++ [p]). rewrite <- app_assoc. exact Hq.
           ++ exists skipped. exact Hq.
        -- rewrite Hnext. cbn [fst snd].
           rewrite attempts_logged_attempt, attempts_after_skips.
           split; [lia|]. exists skipped. exact Hq.
  - split; [cbn; lia|]. exists []. reflexivity.
Qed.

(** X8. However far a caller takes the generator, every outcome yielded
    has its own logged attempt, and at most one more attempt is logged,
    the one that ended at line 190; the queue left over is a tail of the
    queue at the start: phases leave the queue only from the front and
    none is ever put back or reordered. *)
Theorem outcomes_have_attempts_and_queue_shrinks_from_front (n : nat)
    (env : Env) (gen : Frame * PhaseExecutor.t) :
  let run := PhaseExecutor.take n env gen in
  (PhaseExecutor.attempts (snd gen) + List.length (fst run)
   <= PhaseExecutor.attempts (snd (snd run))
   <= PhaseExecutor.attempts (snd gen) + List.length (fst run) + 1)%nat
  /\ (List.length (fst run) <= n)%nat
  /\ exists dropped, pending (snd gen) = dropped ++ pending (snd (snd run)).
Proof.
  cbv zeta. revert gen. induction n as [ | n IH]; intros gen.
  - cbn. split; [lia|]. split; [lia|]. exists []. reflexivity.
  - rewrite take_S.
    destruct (next_frame env gen) as (Hatt & dropped & Hdrop).
    destruct (PhaseExecutor.next env gen) as [[o | | exc | ] gen1];
      cbn [fst snd List.length] in *.
    + destruct (IH gen1) as (Hatt1 & Hlen1 & dropped1 & Hdrop1).
      destruct (PhaseExecutor.take n env gen1) as [os gen2].
      cbn [fst snd List.length] in *.
      split; [lia|]. split; [lia|].
      exists (dropped ++ dropped1).
      rewrite Hdrop, Hdrop1, app_assoc. reflexivity.
    + split; [lia|]. split; [lia|]. exists dropped. exact Hdrop.
    + split; [lia|]. split; [lia|]. exists dropped. exact Hdrop.
    + split; [lia|]. split; [lia|]. exists dropped. exact Hdrop.
Qed.









(** Without the attribute [_test_state] a next() never yields. *)
Lemma unassigned_next_does_not_yield (env : Env) (self : PhaseExecutor.t) :
  PhaseExecutor._test_state self = None ->
  match fst (PhaseExecutor.next env (PhaseExecutor.ExecutePhases self)) with
  | Yield _ => False
  | _ =>
      fst (snd (PhaseExecutor.next env (PhaseExecutor.ExecutePhases self)))
      = Ended
      /\ PhaseExecutor._current_phase
           (snd (snd (PhaseExecutor.next env
                        (PhaseExecutor.ExecutePhases self))))
         = PhaseExecutor._current_phase self
      /\ data (snd (snd (PhaseExecutor.next env
                           (PhaseExecutor.ExecutePhases self))))
         = data self
  end.
Proof.
  intros N.
  assert (A : has_test_state self = false).
  { unfold has_test_state. rewrite N. reflexivity. }
  destruct (next_cases env self)
    as (skipped & remaining & Hq & Hall & Hnext).
  destruct remaining as [ | p rest].
  - rewrite Hnext. repeat split.
  - destruct (PhaseExecutor.skip_test p (data self)) as [exc | [ | ]].
    + rewrite Hnext. repeat split.
    + contradiction.
    + rewrite A in Hnext. rewrite Hnext. repeat split.
Qed.

(** X13. On an executor as [__init__] builds it, where nothing has
    assigned [_test_state], no outcome is ever yielded and no phase is
    ever run: however many outcomes the caller asks for, it gets none,
    no thread has become the current one, and the execution context is
    untouched. *)
Theorem executor_as_built_never_yields (n : nat) (env : Env)
    (ts : TestState) :
  let run :=
    PhaseExecutor.take n env
      (PhaseExecutor.ExecutePhases (PhaseExecutor.__init__ ts)) in
  fst run = []
  /\ PhaseExecutor._current_phase (snd (snd run)) = None
  /\ data (snd (snd run)) = phase_data ts
  /\ exists dropped,
      pending_phases ts = dropped ++ pending (snd (snd run)).
Proof.
  cbv zeta. destruct n as [ | n].
  - cbn. repeat split. exists []. reflexivity.
  - rewrite take_S.
    pose proof (unassigned_next_does_not_yield env
                  (PhaseExecutor.__init__ ts) eq_refl) as H.
    destruct (next_frame env
                (PhaseExecutor.ExecutePhases (PhaseExecutor.__init__ ts)))
      as (_ & dropped & Hdrop).
    destruct (PhaseExecutor.next env
                (PhaseExecutor.ExecutePhases (PhaseExecutor.__init__ ts)))
      as [[o | | exc | ] gen1]; cbn [fst snd] in *;
      [contradiction | | | ];
      destruct H as (_ & Hcur & Hdata);
      (split; [reflexivity|]); (split; [exact Hcur|]);
      (split; [exact Hdata|]); exists dropped; exact Hdrop.
Qed.
(** ** Names *)

Lemma string_length_app (a b : string) :
  String.length (a ++ b)%string = (String.length a + String.length b)%nat.
Proof. induction a as [ | c a IH]; cbn; [reflexivity | now rewrite IH]. Qed.

Lemma string_app_inv_tail (a b t : string) :
  (a ++ t)%string = (b ++ t)%string -> a = b.
Proof.
  revert b. induction a as [ | c a IH]; intros [ | c' b] H.
  - reflexivity.
  - apply (f_equal String.length) in H. cbn in H.
    rewrite string_length_app in H. lia.
  - apply (f_equal String.length) in H. cbn in H.
    rewrite string_length_app in H. lia.
  - cbn in H. injection H as -> H. f_equal. exact (IH b H).
Qed.

(** X12. The thread's name is the name of its phase, and both the name
    handed to the base class and the printed form of the thread determine
    it: two threads print alike only if their phases have the same
    name. *)
Theorem thread_print_determines_phase_name
    (a b : PhaseExecutorThread.t) :
  PhaseExecutorThread.name a = name (PhaseExecutorThread._phase a)
  /\ (PhaseExecutorThread.__str__ a = PhaseExecutorThread.__str__ b
      <-> PhaseExecutorThread.name a = PhaseExecutorThread.name b)
  /\ (PhaseExecutorThread.thread_name a = PhaseExecutorThread.thread_name b
      <-> PhaseExecutorThread.name a = PhaseExecutorThread.name b).
Proof.
  split; [reflexivity|].
  unfold PhaseExecutorThread.__str__, PhaseExecutorThread.thread_name.
  split; split.
  - cbn. intros H. inversion H as [H']. exact (string_app_inv_tail _ _ _ H').
  - intros ->. reflexivity.
  - cbn. intros H. inversion H. reflexivity.
  - intros ->. reflexivity.
Qed.
